(** * Verification of the weak/strong depth-supervision experiment scripts

    A shallow embedding of [compare_training.py], [monitor_training.py],
    [run_comparison.py] and [test_gt_depth.py].

    - Python [float] is IEEE binary64 and is modelled by Rocq's primitive
      floats, so every arithmetic step and comparison of the scripts is
      evaluated bit for bit.
    - Python dictionaries keep insertion order; they are association lists
      read through [dict_get] and written through [dict_set].
    - Python exceptions are values of [exn]; code that can raise returns a
      [result], code that also prints, writes files or starts processes
      lives in the trace monad [io].
    - What the scripts read from the machine (importable modules, files on
      disk, the content of the event logs, what creating a directory or
      saving a figure raises) is an explicit [world] argument; the child
      processes are an explicit [children] argument.
    - The user's Ctrl-C is a count of the steps that are completed before
      it arrives, threaded through the runs it can interrupt. *)

From Stdlib Require Import ZArith List String Ascii Bool Lia Floats Uint63.
Import ListNotations.

Set Warnings "-register-all,-inexact-float".
Local Open Scope string_scope.
Local Open Scope list_scope.

(* ================================================================= *)
(** * Python values *)

(** The scalars the scripts handle: [str], [int], [float] and [bool]. *)
Inductive pyval :=
| PyStr (s : string)
| PyInt (z : Z)
| PyFloat (f : float)
| PyBool (b : bool).

(** One piece of a printed line or of an exception message.  Literal text
    is kept as text; a formatted value keeps the value and its format
    specification ([{x:.4f}] is [Fixed 4 x], [{x}] is [Show x],
    [{s:20s}] is [Padded 20 s]). *)
Inductive fragment :=
| Lit (s : string)
| Show (v : pyval)
| Fixed (digits : nat) (v : pyval)
| Padded (width : nat) (s : string).

Definition message := list fragment.

Inductive exn :=
| KeyError (key : string)
| AttributeError (name : string)
| IndexError
| TypeError
| ValueError
| ZeroDivisionError
| AssertionError (msg : option message)
| SystemExit (code : Z)
| KeyboardInterrupt
| OverflowError
| OSError (name : string).

Inductive result (A : Type) :=
| Ok (a : A)
| Raise (e : exn).
Arguments Ok {A} a.
Arguments Raise {A} e.

Definition rbind {A B} (r : result A) (k : A -> result B) : result B :=
  match r with
  | Ok a => k a
  | Raise e => Raise e
  end.

Declare Scope result_scope.
Delimit Scope result_scope with result.
Notation "x <- r ;; k" := (rbind r (fun x => k))
  (at level 100, r at next level, right associativity) : result_scope.

(** ** Strings *)

Definition nl : string := String (ascii_of_nat 10) EmptyString.

(** [s * n] *)
Fixpoint str_repeat (s : string) (n : nat) : string :=
  match n with
  | O => ""
  | S n' => s ++ str_repeat s n'
  end.

(** [needle in hay] on strings *)
Fixpoint str_contains (needle hay : string) : bool :=
  if String.prefix needle hay then true
  else match hay with
       | EmptyString => false
       | String _ hay' => str_contains needle hay'
       end.

(** [sep.join(parts)] *)
Definition str_join (sep : string) (parts : list string) : string :=
  String.concat sep parts.

(** [s.split()] on a string whose only whitespace is the space. *)
Fixpoint str_split_aux (s : string) (cur : string) : list string :=
  match s with
  | EmptyString => if String.eqb cur "" then [] else [cur]
  | String c s' =>
      if Ascii.eqb c " "%char
      then (if String.eqb cur "" then [] else [cur]) ++ str_split_aux s' ""
      else str_split_aux s' (cur ++ String c EmptyString)
  end.

Definition str_split (s : string) : list string := str_split_aux s "".

(** ** Paths

    [pathlib] on POSIX keeps of a path its root and its parts: the text
    is cut at every slash, empty parts and [.] are dropped, and the root
    is [/] for a leading slash, [//] for exactly two of them. *)
Record pure_path := mkPath {
  path_root : string;
  path_parts : list string
}.

(** [s.split("/")]; [cur] holds the part being read. *)
Fixpoint split_slash (s cur : string) : list string :=
  match s with
  | EmptyString => [cur]
  | String c s' =>
      if Ascii.eqb c "/"%char then cur :: split_slash s' ""
      else split_slash s' (cur ++ String c EmptyString)
  end.

Fixpoint leading_slashes (s : string) : nat :=
  match s with
  | String "/" s' => S (leading_slashes s')
  | _ => O
  end.

(** [Path(s)] *)
Definition parse_path (s : string) : pure_path :=
  mkPath (match leading_slashes s with
          | O => ""
          | 2 => "//"
          | _ => "/"
          end)
         (filter (fun part => negb (String.eqb part "")
                              && negb (String.eqb part "."))
                 (split_slash s "")).

(** [str(p)] *)
Definition path_text (p : pure_path) : string :=
  match path_root p, path_parts p with
  | EmptyString, [] => "."
  | root, parts => root ++ String.concat "/" parts
  end.

(** [p / child]: an absolute [child] replaces [p]. *)
Definition path_div (p : pure_path) (child : string) : pure_path :=
  let q := parse_path child in
  if String.eqb (path_root q) "" then
    mkPath (path_root p) (path_parts p ++ path_parts q)
  else q.

(** [str(Path(s))] *)
Definition path_str (s : string) : string := path_text (parse_path s).

(** [str(Path(a) / b)] *)
Definition path_join (a b : string) : string :=
  path_text (path_div (parse_path a) b).

(** ** Floats *)

Definition float_of_Z (z : Z) : float :=
  if (z <? 0)%Z then PrimFloat.opp (PrimFloat.of_uint63 (Uint63.of_Z (- z)))
  else PrimFloat.of_uint63 (Uint63.of_Z z).

(** [x != 0] for a float [x] *)
Definition float_nonzero (x : float) : bool := negb (PrimFloat.eqb x 0%float).

(** [x / y] on floats raises on a zero divisor. *)
Definition py_truediv (x y : float) : result float :=
  if PrimFloat.eqb y 0%float then Raise ZeroDivisionError
  else Ok (PrimFloat.div x y).

Definition is_nan (x : float) : bool := negb (PrimFloat.eqb x x).

(** NaN among the floats as the kernel specifies them. *)
Definition SFnan (a : spec_float) : bool :=
  match a with
  | S754_nan => true
  | _ => false
  end.

(** ** Lists *)

(** [bool(l)] *)
Definition nonempty {A} (l : list A) : bool :=
  match l with
  | [] => false
  | _ :: _ => true
  end.

(** [l[-1]] *)
Fixpoint py_last {A} (l : list A) : result A :=
  match l with
  | [] => Raise IndexError
  | [x] => Ok x
  | _ :: l' => py_last l'
  end.

(** The builtin [min]: the first item is kept until a later one compares
    [<] to the item held. *)
Definition min_step (held item : float) : float :=
  if PrimFloat.ltb item held then item else held.

Definition py_min (l : list float) : result float :=
  match l with
  | [] => Raise ValueError
  | x :: l' => Ok (fold_left min_step l' x)
  end.

(** The builtin [max]: a later item replaces the one held when it compares
    [>] to it. *)
Definition max_step (held item : float) : float :=
  if PrimFloat.ltb held item then item else held.

Definition py_max (l : list float) : result float :=
  match l with
  | [] => Raise ValueError
  | x :: l' => Ok (fold_left max_step l' x)
  end.

(** [max(l, key=key)] *)
Definition py_max_by {A} (key : A -> float) (l : list A) : result A :=
  match l with
  | [] => Raise ValueError
  | x :: l' =>
      Ok (fold_left (fun m y => if PrimFloat.ltb (key m) (key y) then y else m) l' x)
  end.

(** ** Dictionaries *)

Definition dict (V : Type) := list (string * V).

(** [d.get(k)] *)
Fixpoint dict_get {V} (d : dict V) (k : string) : option V :=
  match d with
  | [] => None
  | (k', v) :: d' => if String.eqb k k' then Some v else dict_get d' k
  end.

(** [k in d] *)
Definition dict_in {V} (k : string) (d : dict V) : bool :=
  match dict_get d k with
  | Some _ => true
  | None => false
  end.

(** [d[k]] *)
Definition dict_index {V} (d : dict V) (k : string) : result V :=
  match dict_get d k with
  | Some v => Ok v
  | None => Raise (KeyError k)
  end.

(** [d[k] = v]: an existing key keeps its place, a new key goes last. *)
Fixpoint dict_set {V} (d : dict V) (k : string) (v : V) : dict V :=
  match d with
  | [] => [(k, v)]
  | (k', v') :: d' =>
      if String.eqb k k' then (k', v) :: d' else (k', v') :: dict_set d' k v
  end.

Definition dict_keys {V} (d : dict V) : list string := map fst d.

(** ** numpy *)

Module np.

(** [np.sum] of a list of floats is numpy's pairwise summation over the
    float64 array, added to the initial value of the reduction.

    - Fewer than eight items are added from left to right, starting from
      [-0.0].
    - Up to 128 items are added into eight running sums, item [i] into
      sum [i mod 8]; the eight sums are then added as a balanced tree and
      the items left over past the last full group of eight are added one
      by one.
    - More items are cut in two at half the length rounded down to a
      multiple of eight, and the sums of the halves are added.

    The initial value is [-0.0], as in the numpy releases that keep the
    sign of a sum of negative zeros; older releases start from [0.0],
    which changes nothing but the sign of a zero result. *)

(** [r[j] += a[i + j]] for the eight running sums. *)
Definition add_block (r block : list float) : list float :=
  map (fun p => PrimFloat.add (fst p) (snd p)) (combine r block).

(** [blocks] further groups of eight taken from [rest]. *)
Fixpoint add_blocks (blocks : nat) (r rest : list float)
  : list float * list float :=
  match blocks with
  | O => (r, rest)
  | S k => add_blocks k (add_block r (firstn 8 rest)) (skipn 8 rest)
  end.

Definition combine8 (r : list float) : float :=
  match r with
  | [r0; r1; r2; r3; r4; r5; r6; r7] =>
      PrimFloat.add
        (PrimFloat.add (PrimFloat.add r0 r1) (PrimFloat.add r2 r3))
        (PrimFloat.add (PrimFloat.add r4 r5) (PrimFloat.add r6 r7))
  | _ => neg_zero
  end.

(** The sum of 8 to 128 items. *)
Definition block_sum (a : list float) : float :=
  let (r, rest) :=
    add_blocks (List.length a / 8 - 1) (firstn 8 a) (skipn 8 a) in
  fold_left PrimFloat.add rest (combine8 r).

(** [depth] bounds the number of times the list is cut in two; the
    length of the list is always enough. *)
Fixpoint pairwise_sum (depth : nat) (a : list float) : float :=
  let n := List.length a in
  if (n <? 8)%nat then fold_left PrimFloat.add a neg_zero
  else if (n <=? 128)%nat then block_sum a
  else
    match depth with
    | O => block_sum a
    | S depth' =>
        let n2 := (n / 2 - (n / 2) mod 8)%nat in
        PrimFloat.add (pairwise_sum depth' (firstn n2 a))
                      (pairwise_sum depth' (skipn n2 a))
    end.

Definition sum (l : list float) : float :=
  PrimFloat.add neg_zero (pairwise_sum (List.length l) l).

(** [np.mean]: the sum divided by the number of items. *)
Definition mean (l : list float) : float :=
  PrimFloat.div (sum l) (float_of_Z (Z.of_nat (List.length l))).

(** [np.std]: the square root of the mean of the squared deviations
    from the mean. *)
Definition std (l : list float) : float :=
  let m := mean l in
  let dev := map (fun x => PrimFloat.sub x m) l in
  PrimFloat.sqrt (mean (map (fun d => PrimFloat.mul d d) dev)).

End np.

(* ================================================================= *)
(** * Effects *)

(** A scalar series as the readers return it:
    [{'steps': [...], 'values': [...]}]. *)
Record series := mkSeries {
  steps : list Z;
  values : list float
}.

(** A metric snapshot: what [extract_tensorboard_data] returns, [None] or
    a dictionary from tag to series. *)
Definition snapshot := option (dict series).

(** JSON documents as [json.dump] receives them. *)
Inductive json :=
| JInt (z : Z)
| JFloat (f : float)
| JBool (b : bool)
| JObject (members : list (string * json)).

(** A line drawn by [ax.plot(xs, ys, fmt, label=..., linewidth=2)]. *)
Record plot_line := mkLine {
  line_xs : list Z;
  line_ys : list float;
  line_fmt : string;
  line_label : string
}.

(** One panel of the figure. *)
Record axes := mkAxes {
  ax_lines : list plot_line;
  ax_title : string;
  ax_xlabel : string;
  ax_ylabel : string;
  ax_legend : bool;
  ax_grid : bool
}.

Definition figure := list axes.

(** What a script does to the outside, in order. *)
Inductive event :=
| Print (line : message)
| Mkdir (path : string)
| SaveFig (path : string) (fig : figure)
| WriteJson (path : string) (doc : json)
| Popen (cmd : list string)
| Wait (pid : Z)
| Terminate (pid : Z)
| Run (cmd : list string)
| Sleep (seconds : Z).

(** Computations that leave a trace and may raise. *)
Definition io (A : Type) : Type := list event * result A.

Definition ret {A} (a : A) : io A := ([], Ok a).

Definition bind {A B} (m : io A) (k : A -> io B) : io B :=
  match m with
  | (t, Ok a) => let (t', r) := k a in (t ++ t', r)
  | (t, Raise e) => (t, Raise e)
  end.

Definition emit (e : event) : io unit := ([e], Ok tt).

Definition print (line : message) : io unit := emit (Print line).

Definition lift {A} (r : result A) : io A := ([], r).

Definition trace {A} (m : io A) : list event := fst m.
Definition outcome {A} (m : io A) : result A := snd m.

Declare Scope io_scope.
Delimit Scope io_scope with io.
Notation "x <- m ;; k" := (bind m (fun x => k))
  (at level 100, m at next level, right associativity) : io_scope.
Notation "m ;; k" := (bind m (fun _ => k))
  (at level 100, right associativity) : io_scope.

(** [for x in l: body x] *)
Fixpoint for_each {A} (l : list A) (body : A -> io unit) : io unit :=
  match l with
  | [] => ret tt
  | x :: l' => (body x ;; for_each l' body)%io
  end.

(** A loop that threads a state through its iterations. *)
Fixpoint rfold {A S} (body : S -> A -> result S) (l : list A) (s : S) : result S :=
  match l with
  | [] => Ok s
  | x :: l' => (s' <- body s x ;; rfold body l' s')%result
  end.

(** ** Interrupts

    A run that the user may interrupt with Ctrl-C.  [pending] is the
    number of steps that are still completed before the interrupt
    arrives, [None] when it does not arrive; a step is an effect on the
    outside, or the return of a call that blocks.  One interrupt is
    followed: once it is raised, none is pending. *)
Definition interruptible (A : Type) : Type := option nat -> io A * option nat.

Definition ibind {A B} (m : interruptible A) (k : A -> interruptible B)
  : interruptible B :=
  fun pending =>
    match m pending with
    | ((t, Ok a), pending') =>
        match k a pending' with
        | ((t', r), pending'') => ((t ++ t', r), pending'')
        end
    | ((t, Raise e), pending') => ((t, Raise e), pending')
    end.

(** Statements that do not block: the interrupt arrives before one of
    their effects, or they run to their end. *)
Definition statements {A} (m : io A) : interruptible A :=
  fun pending =>
    match pending with
    | None => (m, None)
    | Some k =>
        if (k <? List.length (trace m))%nat
        then ((firstn k (trace m), Raise KeyboardInterrupt), None)
        else (m, Some (k - List.length (trace m))%nat)
    end.

(** A call that blocks: the interrupt may also arrive while the call is
    under way, after its effects and before it returns. *)
Definition blocking {A} (m : io A) : interruptible A :=
  fun pending =>
    match pending with
    | None => (m, None)
    | Some k =>
        if (k <? List.length (trace m))%nat
        then ((firstn k (trace m), Raise KeyboardInterrupt), None)
        else if (k =? List.length (trace m))%nat
        then match outcome m with
             | Ok _ => ((trace m, Raise KeyboardInterrupt), None)
             | Raise _ => (m, Some O)
             end
        else (m, Some (k - List.length (trace m) - 1)%nat)
    end.

(** The interrupt arrives here. *)
Definition interrupt_now {A} : interruptible A :=
  fun _ => (([], Raise KeyboardInterrupt), None).

(** [try: body except KeyboardInterrupt: handler] *)
Definition except_interrupt (body handler : interruptible unit)
  : interruptible unit :=
  fun pending =>
    match body pending with
    | ((t, Raise KeyboardInterrupt), pending') =>
        match handler pending' with
        | ((t', r), pending'') => ((t ++ t', r), pending'')
        end
    | other => other
    end.

Declare Scope interruptible_scope.
Delimit Scope interruptible_scope with interruptible.
Notation "x <- m ;; k" := (ibind m (fun x => k))
  (at level 100, m at next level, right associativity) : interruptible_scope.
Notation "m ;; k" := (ibind m (fun _ => k))
  (at level 100, right associativity) : interruptible_scope.

(** [l[i]] for an index counted from the front *)
Fixpoint list_index {A} (l : list A) (i : nat) : result A :=
  match l, i with
  | [], _ => Raise IndexError
  | x :: _, O => Ok x
  | _ :: l', S i' => list_index l' i'
  end.

(** The list after the object at position [i] was changed to [x]. *)
Fixpoint list_update {A} (l : list A) (i : nat) (x : A) : list A :=
  match l, i with
  | [], _ => []
  | _ :: l', O => x :: l'
  | y :: l', S i' => y :: list_update l' i' x
  end.

(** [enumerate(l)] *)
Definition enumerate {A} (l : list A) : list (nat * A) :=
  combine (seq 0 (List.length l)) l.

(* ================================================================= *)
(** * The machine the scripts run on *)

(** A file found by [Path.glob], with what the scripts ask of it. *)
Record logfile := mkLog {
  log_path : string;          (* str(f) *)
  log_parent : string;        (* str(f.parent) *)
  st_mtime : float            (* f.stat().st_mtime *)
}.

(** A scalar event of an event log. *)
Record scalar_event := mkEvent {
  step : Z;
  value : float
}.

Record world := mkWorld {
  (* whether [from tensorboard... import EventAccumulator] succeeds *)
  tensorboard_installed : bool;
  (* [list(Path(d).glob("**/events.out.tfevents.*"))] *)
  glob_tfevents : string -> list logfile;
  (* the scalars of [EventAccumulator(d)] after [Reload()]: for every tag
     of [Tags()['scalars']], in that order, the list [Scalars(tag)] *)
  event_store : string -> dict (list scalar_event);
  (* [os.path.exists(p)] *)
  path_exists : string -> bool;
  (* what [Path(p).mkdir(exist_ok=True)] raises, if anything: the parent
     is missing, the path is a file, the permission is denied *)
  mkdir_error : string -> option exn;
  (* what [plt.savefig(p)] raises, if anything *)
  savefig_error : string -> option exn
}.

(** [Path(p).mkdir(exist_ok=True)] *)
Definition mkdir (w : world) (p : string) : io unit :=
  match mkdir_error w (path_str p) with
  | Some e => lift (Raise e)
  | None => emit (Mkdir (path_str p))
  end.

(** [plt.savefig(p)] *)
Definition savefig (w : world) (p : string) (fig : figure) : io unit :=
  match savefig_error w p with
  | Some e => lift (Raise e)
  | None => emit (SaveFig p fig)
  end.

(** [bool(d)] for a snapshot: [None] and the empty dictionary are false. *)
Definition truthy (d : snapshot) : bool :=
  match d with
  | Some (_ :: _) => true
  | _ => false
  end.

(** [d and metric in d] *)
Definition has_metric (d : snapshot) (metric : string) : bool :=
  match d with
  | Some ((_ :: _) as d') => dict_in metric d'
  | _ => false
  end.

(** [d[metric]] for a snapshot *)
Definition snapshot_index (d : snapshot) (metric : string) : result series :=
  match d with
  | Some d' => dict_index d' metric
  | None => Raise TypeError
  end.

(* ================================================================= *)
(** * compare_training.py *)

Module compare_training.

Definition extract_tensorboard_data (w : world) (logdir : string) : io snapshot :=
  if negb (tensorboard_installed w) then
    (print [Lit "Please install tensorboard: pip install tensorboard"] ;;
     ret None)%io
  else
    let tb_files := glob_tfevents w logdir in
    if negb (nonempty tb_files) then
      (print [Lit "No tensorboard files found in "; Lit (path_str logdir)] ;;
       ret None)%io
    else
      (latest_log <- lift (py_max_by st_mtime tb_files) ;;
       print [Lit "Loading tensorboard data from: "; Lit (log_path latest_log)] ;;
       let ea := event_store w (log_parent latest_log) in
       let scalar_tags := dict_keys ea in
       data <- lift (rfold
                 (fun data tag =>
                    (scalar_events <- dict_index ea tag ;;
                     Ok (dict_set data tag
                           (mkSeries (map step scalar_events)
                                     (map value scalar_events))))%result)
                 scalar_tags []) ;;
       ret (Some data))%io.

(** ** plot_comparison *)

Definition key_metrics : list (string * string * string) :=
  [ ("train_loss_patches/total_loss", "Total Training Loss", "Loss");
    ("train_loss_patches/l1_loss", "L1 Training Loss", "L1 Loss");
    ("train/loss_viewpoint - l1_loss", "Validation L1 Loss", "L1 Loss");
    ("train/loss_viewpoint - psnr", "Validation PSNR", "PSNR (dB)");
    ("total_points", "Total Gaussians", "Count") ].

Definition blank_axes : axes := mkAxes [] "" "" "" false false.

(** [plt.subplots(2, 3)] flattened *)
Definition subplots_2_3 : figure := repeat blank_axes 6.

Definition add_line (ax : axes) (l : plot_line) : axes :=
  mkAxes (ax_lines ax ++ [l]) (ax_title ax) (ax_xlabel ax) (ax_ylabel ax)
         (ax_legend ax) (ax_grid ax).

(** [ax.plot(xs, ys, ...)] refuses sequences of different lengths. *)
Definition ax_plot (ax : axes) (l : plot_line) : result axes :=
  if (List.length (line_xs l) =? List.length (line_ys l))%nat
  then Ok (add_line ax l)
  else Raise ValueError.

Definition plot_side (d : snapshot) (metric fmt label : string) (ax : axes)
  : result axes :=
  if has_metric d metric then
    (s <- snapshot_index d metric ;;
     ax_plot ax (mkLine (steps s) (values s) fmt label))%result
  else Ok ax.

Definition plot_panel (weak_data strong_data : snapshot) (fig : figure)
           (entry : nat * (string * string * string)) : result figure :=
  let '(idx, (metric, title, ylabel)) := entry in
  (ax <- list_index fig idx ;;
   ax <- plot_side weak_data metric "b-" "Weak Supervision" ax ;;
   ax <- plot_side strong_data metric "r-" "Strong Supervision" ax ;;
   Ok (list_update fig idx
         (mkAxes (ax_lines ax) title "Iteration" ylabel true true)))%result.

Definition plot_comparison (w : world) (weak_data strong_data : snapshot)
           (output_dir : string) : io figure :=
  (mkdir w output_dir ;;
   axes <- lift (rfold (plot_panel weak_data strong_data)
                       (enumerate key_metrics) subplots_2_3) ;;
   let axes := if (List.length key_metrics <? List.length axes)%nat
               then removelast axes else axes in
   let png := path_join output_dir "training_comparison.png" in
   savefig w png axes ;;
   print [Lit "Comparison plot saved to: "; Lit png] ;;
   ret axes)%io.

(** ** compute_statistics *)

Record summary := mkSummary {
  final_value : float;
  min_value : float;
  max_value : float;
  mean_value : float;
  std_value : float;
  total_iterations : Z
}.

Record comparison_record := mkComparison {
  absolute_improvement : float;
  relative_improvement_percent : pyval;
  strong_better : bool
}.

(** The three sections of [stats].  An entry [None] is the empty
    dictionary [{}]. *)
Record stats := mkStats {
  weak_supervision : dict (option summary);
  strong_supervision : dict (option summary);
  comparison : dict (option comparison_record)
}.

Definition set_weak (st : stats) (metric : string) (e : option summary) :=
  mkStats (dict_set (weak_supervision st) metric e)
          (strong_supervision st) (comparison st).

Definition set_strong (st : stats) (metric : string) (e : option summary) :=
  mkStats (weak_supervision st)
          (dict_set (strong_supervision st) metric e) (comparison st).

Definition set_comparison (st : stats) (metric : string)
           (e : option comparison_record) :=
  mkStats (weak_supervision st) (strong_supervision st)
          (dict_set (comparison st) metric e).

Definition metrics_to_analyze : list string :=
  [ "train_loss_patches/total_loss";
    "train_loss_patches/l1_loss";
    "train/loss_viewpoint - l1_loss";
    "train/loss_viewpoint - psnr";
    "total_points" ].

(** The six statistics of a series. *)
Definition summarize (vals : list float) : result summary :=
  (final <- py_last vals ;;
   lo <- py_min vals ;;
   hi <- py_max vals ;;
   Ok (mkSummary final lo hi (np.mean vals) (np.std vals)
                 (Z.of_nat (List.length vals))))%result.

(** One side's statistics: the [if data and metric in data] block. *)
Definition side_stats (data : snapshot) (metric : string)
  : result (option summary) :=
  if has_metric data metric then
    (s <- snapshot_index data metric ;;
     let vals := values s in
     if nonempty vals then (r <- summarize vals ;; Ok (Some r))
     else Ok None)%result
  else Ok None.

(** The comparison block. *)
Definition compare_sides (weak_data strong_data : snapshot) (metric : string)
  : result (option comparison_record) :=
  if has_metric weak_data metric && has_metric strong_data metric then
    (sw <- snapshot_index weak_data metric ;;
     ss <- snapshot_index strong_data metric ;;
     let values_w := values sw in
     let values_s := values ss in
     if nonempty values_w && nonempty values_s then
       (last_s <- py_last values_s ;;
        last_w <- py_last values_w ;;
        let final_improvement := PrimFloat.sub last_s last_w in
        relative_improvement <-
          (if float_nonzero last_w
           then (q <- py_truediv final_improvement last_w ;;
                 Ok (PyFloat (PrimFloat.mul q 100%float)))
           else Ok (PyInt 0)) ;;
        Ok (Some (mkComparison final_improvement relative_improvement
                    (if str_contains "psnr" metric
                     then PrimFloat.ltb 0%float final_improvement
                     else PrimFloat.ltb final_improvement 0%float))))
     else Ok None)%result
  else Ok None.

(** One iteration of [for metric in metrics_to_analyze].  Each entry is
    first set to [{}] and replaced when its block applies. *)
Definition analyze_metric (weak_data strong_data : snapshot)
           (st : stats) (metric : string) : result stats :=
  let st := set_weak st metric None in
  let st := set_strong st metric None in
  let st := set_comparison st metric None in
  (w <- side_stats weak_data metric ;;
   let st := match w with Some _ => set_weak st metric w | None => st end in
   s <- side_stats strong_data metric ;;
   let st := match s with Some _ => set_strong st metric s | None => st end in
   c <- compare_sides weak_data strong_data metric ;;
   let st := match c with Some _ => set_comparison st metric c | None => st end in
   Ok st)%result.

Definition summary_to_json (e : option summary) : json :=
  match e with
  | None => JObject []
  | Some r =>
      JObject [ ("final_value", JFloat (final_value r));
                ("min_value", JFloat (min_value r));
                ("max_value", JFloat (max_value r));
                ("mean_value", JFloat (mean_value r));
                ("std_value", JFloat (std_value r));
                ("total_iterations", JInt (total_iterations r)) ]
  end.

Definition number_to_json (v : pyval) : json :=
  match v with
  | PyFloat f => JFloat f
  | PyInt z => JInt z
  | PyBool b => JBool b
  | PyStr _ => JObject []
  end.

Definition comparison_to_json (e : option comparison_record) : json :=
  match e with
  | None => JObject []
  | Some c =>
      JObject [ ("absolute_improvement", JFloat (absolute_improvement c));
                ("relative_improvement_percent",
                 number_to_json (relative_improvement_percent c));
                ("strong_better", JBool (strong_better c)) ]
  end.

Definition section_to_json {E} (f : E -> json) (d : dict E) : json :=
  JObject (map (fun kv => (fst kv, f (snd kv))) d).

Definition stats_to_json (st : stats) : json :=
  JObject [ ("weak_supervision",
             section_to_json summary_to_json (weak_supervision st));
            ("strong_supervision",
             section_to_json summary_to_json (strong_supervision st));
            ("comparison",
             section_to_json comparison_to_json (comparison st)) ].

(** The lines of the summary table for one metric. *)
Definition report_metric (st : stats) (metric : string) : io unit :=
  match dict_get (comparison st) metric with
  | Some (Some comp) =>
      (print [Lit nl; Lit metric; Lit ":"] ;;
       print [Lit "  Final improvement: ";
              Fixed 4 (PyFloat (absolute_improvement comp))] ;;
       print [Lit "  Relative improvement: ";
              Fixed 2 (relative_improvement_percent comp); Lit "%"] ;;
       print [Lit "  Strong supervision better: ";
              Show (PyBool (strong_better comp))])%io
  | _ => ret tt
  end.

Definition compute_statistics (weak_data strong_data : snapshot)
           (output_dir : string) : io stats :=
  (st <- lift (rfold (analyze_metric weak_data strong_data)
                     metrics_to_analyze (mkStats [] [] [])) ;;
   let path := path_join output_dir "comparison_summary.json" in
   emit (WriteJson path (stats_to_json st)) ;;
   print [Lit nl; Lit (str_repeat "=" 80)] ;;
   print [Lit "TRAINING COMPARISON SUMMARY"] ;;
   print [Lit (str_repeat "=" 80)] ;;
   for_each metrics_to_analyze (report_metric st) ;;
   print [Lit nl; Lit "Detailed statistics saved to: "; Lit path] ;;
   ret st)%io.

(** ** main *)

Record args := mkArgs {
  weak : string;
  strong : string;
  output : string
}.

Definition main (w : world) (a : args) : io unit :=
  (print [Lit "Extracting tensorboard data..."] ;;
   weak_data <- extract_tensorboard_data w (weak a) ;;
   strong_data <- extract_tensorboard_data w (strong a) ;;
   if negb (truthy weak_data) && negb (truthy strong_data) then
     print [Lit "No tensorboard data found in either directory!"]
   else
     (mkdir w (output a) ;;
      print [Lit "Generating comparison plots..."] ;;
      _ <- plot_comparison w weak_data strong_data (output a) ;;
      print [Lit "Computing statistics..."] ;;
      _ <- compute_statistics weak_data strong_data (output a) ;;
      print [Lit nl;
             Lit "Comparison complete! Check the output directory for results."]))%io.

End compare_training.

(** [s.replace(old, new)] for a non-empty [old]: every occurrence of
    [old], found from left to right without overlap, becomes [new].
    [skip] counts the characters of a matched occurrence still to pass. *)
Fixpoint replace_from (old new s : string) (skip : nat) : string :=
  match s with
  | EmptyString => EmptyString
  | String c s' =>
      match skip with
      | S k => replace_from old new s' k
      | O =>
          if String.prefix old s
          then new ++ replace_from old new s' (String.length old - 1)
          else String c (replace_from old new s' 0)
      end
  end.

Definition str_replace (old new s : string) : string :=
  replace_from old new s 0.

(* ================================================================= *)
(** * monitor_training.py *)

Module monitor_training.

Record latest := mkLatest {
  latest_step : Z;
  latest_value : float;
  total_points : Z
}.

Definition monitored_tags : list string :=
  [ "train_loss_patches/total_loss"; "train_loss_patches/l1_loss";
    "test/loss_viewpoint - psnr"; "total_points" ].

(** The body of [for tag in [...]]. *)
Definition latest_of_tag (ea : dict (list scalar_event))
           (metrics : dict latest) (tag : string) : result (dict latest) :=
  if existsb (String.eqb tag) (dict_keys ea) then
    (scalar_events <- dict_index ea tag ;;
     if nonempty scalar_events then
       (e <- py_last scalar_events ;;
        Ok (dict_set metrics tag
              (mkLatest (step e) (value e)
                        (Z.of_nat (List.length scalar_events)))))
     else Ok metrics)%result
  else Ok metrics.

(** The [ImportError] of a missing tensorboard is caught and passed
    over; the function then falls through to [return None]. *)
Definition get_latest_metrics (w : world) (model_dir : string)
  : io (option (dict latest)) :=
  if tensorboard_installed w then
    let tb_files := glob_tfevents w model_dir in
    if nonempty tb_files then
      (latest_log <- lift (py_max_by st_mtime tb_files) ;;
       let ea := event_store w (log_parent latest_log) in
       metrics <- lift (rfold (latest_of_tag ea) monitored_tags []) ;;
       ret (Some metrics))%io
    else ret None
  else ret None.

(** ** monitor_training *)

(** What the loop does besides the events of [event]: it sleeps. *)
Record tick := mkTick {
  seen : world;
  strftime : string -> string
}.

Definition display_name (metric_name : string) : string :=
  str_replace "test/loss_viewpoint - " "Test "
    (str_replace "train_loss_patches/" "" metric_name).

(** The line printed for one item of [metrics.items()]. *)
Definition metric_line (item : string * latest) : event :=
  let (metric_name, data) := item in
  Print [ Padded 20 (display_name metric_name); Lit ": ";
          Fixed 6 (PyFloat (latest_value data));
          Lit " (iter "; Show (PyInt (latest_step data)); Lit ")" ].

(** The body of [while True] up to the sleep. *)
Definition poll (t : tick) (model_dir : string) : io unit :=
  (metrics <- get_latest_metrics (seen t) model_dir ;;
   match metrics with
   | Some ((_ :: _) as items) =>
       (print [Lit nl; Lit (str_repeat "=" 60)] ;;
        print [Lit "Training Progress - ";
               Lit (strftime t "%Y-%m-%d %H:%M:%S")] ;;
        print [Lit (str_repeat "=" 60)] ;;
        for_each items (fun item => emit (metric_line item)) ;;
        print [Lit (str_repeat "=" 60)])
   | _ =>
       print [Lit "No metrics found at "; Lit (strftime t "%H:%M:%S");
              Lit " - training may not have started yet..."]
   end)%io.

Definition stopped_notice : event :=
  Print [Lit nl; Lit "Monitoring stopped by user."].

(** What [time.sleep(seconds)] raises for an integer, if anything: a
    length whose nanoseconds do not fit 64 bits overflows, a negative
    length is refused. *)
Definition sleep_error (seconds : Z) : option exn :=
  if (9223372036 <? Z.abs seconds)%Z then Some OverflowError
  else if (seconds <? 0)%Z then Some ValueError
  else None.

(** [time.sleep(seconds)] *)
Definition sleep (seconds : Z) : io unit :=
  match sleep_error seconds with
  | Some e => lift (Raise e)
  | None => emit (Sleep seconds)
  end.

(** The [while True] loop.  [ticks] lists the passes the loop gets to
    make, with what each of them sees; the interrupt arrives during the
    sleep that follows the last of them (on entering the loop when none
    is listed) unless it is pending for an earlier moment. *)
Fixpoint monitor_loop (ticks : list tick) (model_dir : string)
         (refresh_interval : Z) : interruptible unit :=
  match ticks with
  | [] => interrupt_now
  | t :: ticks' =>
      (statements (poll t model_dir) ;;
       blocking (sleep refresh_interval) ;;
       monitor_loop ticks' model_dir refresh_interval)%interruptible
  end.

Definition monitor_training (ticks : list tick) (model_dir : string)
           (refresh_interval : Z) : interruptible unit :=
  (statements
     (print [Lit "Monitoring training in: "; Lit model_dir] ;;
      print [Lit "Refresh interval: "; Show (PyInt refresh_interval);
             Lit " seconds"] ;;
      print [Lit "Press Ctrl+C to stop monitoring"; Lit nl])%io ;;
   except_interrupt
     (monitor_loop ticks model_dir refresh_interval)
     (statements (emit stopped_notice)))%interruptible.

Record args := mkArgs {
  model_dir : string;
  refresh : Z
}.

(** [interrupt] places the user's Ctrl-C among the steps of
    [monitor_training]. *)
Definition main (w : world) (ticks : list tick) (interrupt : option nat)
           (a : args) : io unit :=
  if negb (path_exists w (model_dir a)) then
    print [Lit "Model directory does not exist: "; Lit (model_dir a)]
  else fst (monitor_training ticks (model_dir a) (refresh a) interrupt).

End monitor_training.

(* ================================================================= *)
(** * run_comparison.py *)

Module run_comparison.

(** The child processes as the operating system provides them, and the
    moment of the user's Ctrl-C among the steps of
    [run_training_comparison]. *)
Record children := mkChildren {
  weak_pid : Z;
  strong_pid : Z;
  (* what [wait()] returns for the two trainers *)
  weak_exit : Z;
  strong_exit : Z;
  (* what starting a process with that command raises, if anything *)
  popen_error : list string -> option exn;
  interrupt : option nat
}.

Definition test_iters : string :=
  "500 1000 2000 3000 5000 7000 10000 15000 20000 30000".

Definition weak_cmd (scene_path depth_images_path weak_output : string)
  : list string :=
  [ "python"; "train.py";
    "-s"; scene_path;
    "-d"; depth_images_path;
    "-m"; weak_output;
    "--test_iterations" ] ++ str_split test_iters ++
  [ "--iterations"; "30000" ].

Definition strong_cmd (scene_path gt_depth_path strong_output : string)
  : list string :=
  [ "python"; "train.py";
    "-s"; scene_path;
    "--depth_dir"; gt_depth_path;
    "--depth_format"; "png16";
    "--depth_units"; "meters";
    "--depth_weight"; "3.5";
    "--depth_loss"; "huber";
    "--depth_grad_weight"; "0.2";
    "--depth_warmup"; "1500";
    "-m"; strong_output;
    "--test_iterations" ] ++ str_split test_iters ++
  [ "--iterations"; "30000" ].

Definition comparison_cmd (weak_output strong_output output_base : string)
  : list string :=
  [ "python"; "compare_training.py";
    "--weak"; weak_output;
    "--strong"; strong_output;
    "--output"; path_join output_base "comparison_results" ].

(** [subprocess.Popen(cmd)] *)
Definition popen (ch : children) (cmd : list string) : io unit :=
  match popen_error ch cmd with
  | Some e => lift (Raise e)
  | None => emit (Popen cmd)
  end.

(** [subprocess.run(cmd)] *)
Definition subprocess_run (ch : children) (cmd : list string) : io unit :=
  match popen_error ch cmd with
  | Some e => lift (Raise e)
  | None => emit (Run cmd)
  end.

(** [process.wait()] *)
Definition wait (pid exit_code : Z) : io Z :=
  (emit (Wait pid) ;; ret exit_code)%io.

Definition interrupted (ch : children) : io unit :=
  (print [Lit nl; Lit "Training interrupted by user."] ;;
   emit (Terminate (weak_pid ch)) ;;
   emit (Terminate (strong_pid ch)))%io.

Definition completed (weak_result strong_result : Z) : io unit :=
  (print [Lit nl; Lit "Training completed!"] ;;
   print [Lit "Weak supervision exit code: "; Show (PyInt weak_result)] ;;
   print [Lit "Strong supervision exit code: "; Show (PyInt strong_result)] ;;
   print [Lit nl; Lit "Running automatic comparison..."])%io.

Definition run_training_comparison (w : world) (ch : children)
           (scene_path depth_images_path gt_depth_path output_base : string)
  : interruptible unit :=
  let base := path_str output_base in
  let weak_output := path_join output_base "weak_supervision" in
  let strong_output := path_join output_base "strong_supervision" in
  let weak_cmd := weak_cmd scene_path depth_images_path weak_output in
  let strong_cmd := strong_cmd scene_path gt_depth_path strong_output in
  (statements
     (mkdir w output_base ;;
      print [Lit (str_repeat "=" 80)] ;;
      print [Lit "STARTING COMPARATIVE TRAINING"] ;;
      print [Lit (str_repeat "=" 80)] ;;
      print [Lit "Scene path: "; Lit scene_path] ;;
      print [Lit "Depth images (weak): "; Lit depth_images_path] ;;
      print [Lit "GT depth (strong): "; Lit gt_depth_path] ;;
      print [Lit "Output base: "; Lit base] ;;
      print [Lit (str_repeat "=" 80)] ;;
      print [Lit nl; Lit "1. WEAK SUPERVISION TRAINING"] ;;
      print [Lit "Command:"; Lit " "; Lit (str_join " " weak_cmd)] ;;
      print [Lit nl; Lit "Starting weak supervision training..."] ;;
      popen ch weak_cmd ;;
      print [Lit nl; Lit "2. STRONG SUPERVISION TRAINING"] ;;
      print [Lit "Command:"; Lit " "; Lit (str_join " " strong_cmd)] ;;
      print [Lit nl; Lit "Starting strong supervision training..."] ;;
      popen ch strong_cmd ;;
      print [Lit nl; Lit (str_repeat "=" 80)] ;;
      print [Lit "BOTH TRAINING PROCESSES STARTED"] ;;
      print [Lit (str_repeat "=" 80)] ;;
      print [Lit "Weak supervision PID: "; Show (PyInt (weak_pid ch))] ;;
      print [Lit "Strong supervision PID: "; Show (PyInt (strong_pid ch))] ;;
      print [Lit nl; Lit "Monitoring commands:"] ;;
      print [Lit "python monitor_training.py "; Lit weak_output] ;;
      print [Lit "python monitor_training.py "; Lit strong_output] ;;
      print [Lit nl; Lit "Tensorboard: tensorboard --logdir "; Lit base;
             Lit " --port 6006"] ;;
      print [Lit nl; Lit "Comparison: python compare_training.py --weak ";
             Lit weak_output; Lit " --strong "; Lit strong_output] ;;
      print [Lit (str_repeat "=" 80)])%io ;;
   except_interrupt
     (weak_result <- blocking (wait (weak_pid ch) (weak_exit ch)) ;;
      strong_result <- blocking (wait (strong_pid ch) (strong_exit ch)) ;;
      statements (completed weak_result strong_result) ;;
      blocking (subprocess_run ch
                  (comparison_cmd weak_output strong_output output_base)))
     (statements (interrupted ch)))%interruptible.

Record args := mkArgs {
  scene : string;
  depth_images : string;
  gt_depth : string;
  output : string
}.

Definition main (w : world) (ch : children) (a : args) : io unit :=
  if negb (path_exists w (scene a)) then
    print [Lit "Scene path does not exist: "; Lit (scene a)]
  else if negb (path_exists w (depth_images a)) then
    print [Lit "Depth images path does not exist: "; Lit (depth_images a)]
  else if negb (path_exists w (gt_depth a)) then
    print [Lit "GT depth path does not exist: "; Lit (gt_depth a)]
  else
    fst (run_training_comparison w ch (scene a) (depth_images a) (gt_depth a)
                                 (output a) (interrupt ch)).

End run_comparison.

(* ================================================================= *)
(** * The trainer's argument surface *)

(** [a == b] on scalars.  A [bool] counts as the integer 0 or 1, and an
    integer equals a float when they denote the same number. *)
Definition float_eq_Z (f : float) (z : Z) : bool :=
  match Prim2SF f with
  | S754_zero _ => (z =? 0)%Z
  | S754_finite s m e =>
      let v := if s then Z.neg m else Z.pos m in
      if (0 <=? e)%Z then (z =? v * 2 ^ e)%Z else (z * 2 ^ (- e) =? v)%Z
  | _ => false
  end.

Definition Z_of_bool (b : bool) : Z := if b then 1%Z else 0%Z.

Definition py_eq (a b : pyval) : bool :=
  match a, b with
  | PyStr x, PyStr y => String.eqb x y
  | PyStr _, _ | _, PyStr _ => false
  | PyFloat x, PyFloat y => PrimFloat.eqb x y
  | PyFloat x, PyInt y => float_eq_Z x y
  | PyFloat x, PyBool y => float_eq_Z x (Z_of_bool y)
  | PyInt x, PyFloat y => float_eq_Z y x
  | PyBool x, PyFloat y => float_eq_Z y (Z_of_bool x)
  | PyInt x, PyInt y => (x =? y)%Z
  | PyInt x, PyBool y => (x =? Z_of_bool y)%Z
  | PyBool x, PyInt y => (Z_of_bool x =? y)%Z
  | PyBool x, PyBool y => Bool.eqb x y
  end.

Module arguments.

(** Modelled from the spec: the [arguments] module of the trainer
    ([ModelParams], [OptimizationParams], [PipelineParams] and
    [extract]) is not among the sources.  The specification gives its
    surface as far as the contract check reads it: nine options
    [--depth_...] with the defaults below, each taking one value that is
    converted to the type of its default. *)
Definition depth_defaults : dict pyval :=
  [ ("depth_dir", PyStr "");
    ("depth_format", PyStr "png16");
    ("depth_units", PyStr "meters");
    ("depth_weight", PyFloat 2%float);
    ("depth_loss", PyStr "huber");
    ("depth_grad_weight", PyFloat 0.1%float);
    ("depth_warmup", PyInt 2000);
    ("depth_valid_min", PyFloat 1e-4%float);
    ("depth_valid_max", PyFloat 80%float) ].

Definition digit_of (c : ascii) : option Z :=
  let n := nat_of_ascii c in
  if ((48 <=? n) && (n <=? 57))%nat then Some (Z.of_nat (n - 48)) else None.

(** Modelled from the spec: reading a run of decimal digits, most
    significant first; the second component counts the digits read. *)
Fixpoint digits (s : string) (acc : Z) (count : nat) : option (Z * nat) :=
  match s with
  | EmptyString => Some (acc, count)
  | String c s' =>
      match digit_of c with
      | Some d => digits s' (10 * acc + d)%Z (S count)
      | None => None
      end
  end.

(** The text before the first dot, and the text after it if any. *)
Fixpoint split_dot (s : string) : string * option string :=
  match s with
  | EmptyString => ("", None)
  | String c s' =>
      if Ascii.eqb c "."%char then ("", Some s')
      else let (a, b) := split_dot s' in (String c a, b)
  end.

Definition unsigned (s : string) : bool * string :=
  match s with
  | String "-" s' => (true, s')
  | _ => (false, s)
  end.

(** Modelled from the spec: [int(text)] on an optionally signed run of
    digits. *)
Definition to_int (text : string) : option Z :=
  let (neg, body) := unsigned text in
  match digits body 0 0 with
  | Some (n, S _) => Some (if neg then (- n)%Z else n)
  | _ => None
  end.

(** Modelled from the spec: [float(text)] on [digits] or
    [digits.digits]: the digits read as one integer, divided by the
    power of ten of the fractional length.  Both are exact in binary64
    for the short literals of the contract check, so the quotient is the
    correctly rounded value. *)
Definition to_float (text : string) : option float :=
  let (neg, body) := unsigned text in
  let (whole, frac) := split_dot body in
  match digits (whole ++ match frac with Some f => f | None => "" end) 0 0 with
  | Some (n, S _) =>
      let k := match frac with Some f => String.length f | None => O end in
      let x := PrimFloat.div (float_of_Z n) (float_of_Z (10 ^ Z.of_nat k)) in
      Some (if neg then PrimFloat.opp x else x)
  | _ => None
  end.

(** Modelled from the spec: conversion of an option's text to the type
    of its default. *)
Definition convert (default : pyval) (text : string) : option pyval :=
  match default with
  | PyStr _ => Some (PyStr text)
  | PyInt _ => option_map PyInt (to_int text)
  | PyFloat _ => option_map PyFloat (to_float text)
  | PyBool _ => None
  end.

Definition option_name (flag : string) : option string :=
  match flag with
  | String "-" (String "-" name) => Some name
  | _ => None
  end.

(** Modelled from the spec: parsing a list of [--name value] pairs over
    the namespace [ns].  An unknown option, a missing value or a value
    of the wrong type ends the program as [argparse] does. *)
Fixpoint parse_args (argv : list string) (ns : dict pyval) : result (dict pyval) :=
  match argv with
  | [] => Ok ns
  | flag :: text :: argv' =>
      match option_name flag with
      | Some name =>
          match dict_get depth_defaults name with
          | Some default =>
              match convert default text with
              | Some v => parse_args argv' (dict_set ns name v)
              | None => Raise (SystemExit 2)
              end
          | None => Raise (SystemExit 2)
          end
      | None => Raise (SystemExit 2)
      end
  | [_] => Raise (SystemExit 2)
  end.

(** Modelled from the spec: [op.extract(parser.parse_args(argv))]. *)
Definition extract (argv : list string) : result (dict pyval) :=
  parse_args argv depth_defaults.

End arguments.

(* ================================================================= *)
(** * test_gt_depth.py *)

Module test_gt_depth.

Definition check_mark : string :=
  String (ascii_of_nat 226) (String (ascii_of_nat 156)
    (String (ascii_of_nat 147) EmptyString)).

(** [assert c, msg] *)
Definition py_assert (c : bool) (msg : option message) : result unit :=
  if c then Ok tt else Raise (AssertionError msg).

Definition hasattr (o : dict pyval) (name : string) : bool := dict_in name o.

(** [o.name] *)
Definition getattr (o : dict pyval) (name : string) : result pyval :=
  match dict_get o name with
  | Some v => Ok v
  | None => Raise (AttributeError name)
  end.

(** [assert hasattr(o, name), msg] *)
Definition assert_hasattr (o : dict pyval) (name msg : string) : result unit :=
  py_assert (hasattr o name) (Some [Lit msg]).

(** [assert o.name == expected, f"<text>{o.name}"] *)
Definition assert_default (o : dict pyval) (name : string) (expected : pyval)
           (text : string) : result unit :=
  (v <- getattr o name ;;
   py_assert (py_eq v expected) (Some [Lit text; Show v]))%result.

(** [assert o.name == expected] *)
Definition assert_custom (o : dict pyval) (name : string) (expected : pyval)
  : result unit :=
  (v <- getattr o name ;; py_assert (py_eq v expected) None)%result.

Definition test_args_custom : list string :=
  [ "--depth_dir"; "/path/to/depths";
    "--depth_format"; "exr";
    "--depth_units"; "millimeters";
    "--depth_weight"; "3.0";
    "--depth_loss"; "l1";
    "--depth_grad_weight"; "0.2";
    "--depth_warmup"; "1000";
    "--depth_valid_min"; "0.1";
    "--depth_valid_max"; "100.0" ].

Section Check.

(** [fun argv => op.extract(parser.parse_args(argv))] *)
Variable extract : list string -> result (dict pyval).

Definition check_defaults : result unit :=
  (opt <- extract [] ;;
   _ <- assert_hasattr opt "depth_dir" "depth_dir argument missing" ;;
   _ <- assert_hasattr opt "depth_format" "depth_format argument missing" ;;
   _ <- assert_hasattr opt "depth_units" "depth_units argument missing" ;;
   _ <- assert_hasattr opt "depth_weight" "depth_weight argument missing" ;;
   _ <- assert_hasattr opt "depth_loss" "depth_loss argument missing" ;;
   _ <- assert_hasattr opt "depth_grad_weight" "depth_grad_weight argument missing" ;;
   _ <- assert_hasattr opt "depth_warmup" "depth_warmup argument missing" ;;
   _ <- assert_hasattr opt "depth_valid_min" "depth_valid_min argument missing" ;;
   _ <- assert_hasattr opt "depth_valid_max" "depth_valid_max argument missing" ;;
   _ <- assert_default opt "depth_dir" (PyStr "") "Expected empty string, got " ;;
   _ <- assert_default opt "depth_format" (PyStr "png16") "Expected 'png16', got " ;;
   _ <- assert_default opt "depth_units" (PyStr "meters") "Expected 'meters', got " ;;
   _ <- assert_default opt "depth_weight" (PyFloat 2%float) "Expected 2.0, got " ;;
   _ <- assert_default opt "depth_loss" (PyStr "huber") "Expected 'huber', got " ;;
   _ <- assert_default opt "depth_grad_weight" (PyFloat 0.1%float) "Expected 0.1, got " ;;
   _ <- assert_default opt "depth_warmup" (PyInt 2000) "Expected 2000, got " ;;
   _ <- assert_default opt "depth_valid_min" (PyFloat 1e-4%float) "Expected 1e-4, got " ;;
   assert_default opt "depth_valid_max" (PyFloat 80%float) "Expected 80.0, got ")%result.

Definition check_custom : result unit :=
  (opt_custom <- extract test_args_custom ;;
   _ <- assert_custom opt_custom "depth_dir" (PyStr "/path/to/depths") ;;
   _ <- assert_custom opt_custom "depth_format" (PyStr "exr") ;;
   _ <- assert_custom opt_custom "depth_units" (PyStr "millimeters") ;;
   _ <- assert_custom opt_custom "depth_weight" (PyFloat 3%float) ;;
   _ <- assert_custom opt_custom "depth_loss" (PyStr "l1") ;;
   _ <- assert_custom opt_custom "depth_grad_weight" (PyFloat 0.2%float) ;;
   _ <- assert_custom opt_custom "depth_warmup" (PyInt 1000) ;;
   _ <- assert_custom opt_custom "depth_valid_min" (PyFloat 0.1%float) ;;
   assert_custom opt_custom "depth_valid_max" (PyFloat 100%float))%result.

Definition test_gt_depth_args : io unit :=
  (lift check_defaults ;;
   print [Lit check_mark;
          Lit " All GT depth arguments are correctly configured with expected defaults"] ;;
   lift check_custom ;;
   print [Lit check_mark;
          Lit " Custom GT depth argument values are correctly parsed"])%io.

End Check.

Definition cross_mark : string :=
  String (ascii_of_nat 226) (String (ascii_of_nat 156)
    (String (ascii_of_nat 151) EmptyString)).

Definition party : string :=
  String (ascii_of_nat 240) (String (ascii_of_nat 159)
    (String (ascii_of_nat 142) (String (ascii_of_nat 137) EmptyString))).

(** An exception raised by one of the imports, with its [str()]. *)
Record failure := mkFailure {
  raised : exn;
  text : string
}.

(** Whether [except Exception] catches it: everything but the exits and
    the interrupt. *)
Definition is_Exception (e : exn) : bool :=
  match e with
  | SystemExit _ | KeyboardInterrupt => false
  | _ => true
  end.

(** [imports] is what importing the five modules does: nothing, or a
    failure.  A failure that [except Exception] catches is printed and
    raised again; any other leaves the function as it is. *)
Definition test_import_updated_modules (imports : option failure) : io unit :=
  match imports with
  | None => print [Lit check_mark; Lit " All modified modules import successfully"]
  | Some f =>
      if is_Exception (raised f) then
        (print [Lit cross_mark; Lit " Import error: "; Lit (text f)] ;;
         lift (Raise (raised f)))%io
      else lift (Raise (raised f))
  end.

Definition all_passed : event :=
  Print [Lit party;
         Lit " All tests passed! GT depth supervision is ready to use."].

(** The [if __name__ == "__main__"] block. *)
Definition script (imports : option failure)
           (extract : list string -> result (dict pyval)) : io unit :=
  (print [Lit "Testing GT depth supervision implementation..."] ;;
   print [] ;;
   test_import_updated_modules imports ;;
   test_gt_depth_args extract ;;
   print [] ;;
   emit all_passed ;;
   print [] ;;
   print [Lit "Usage example:"] ;;
   print [Lit "python train.py -s <scene> -m <output> \"] ;;
   print [Lit "  --depth_dir /path/to/gt_depths \"] ;;
   print [Lit "  --depth_format png16 --depth_units meters \"] ;;
   print [Lit "  --depth_weight 2.0 --depth_loss huber \"] ;;
   print [Lit "  --depth_warmup 2000 --depth_grad_weight 0.1"])%io.

End test_gt_depth.

(* ================================================================= *)
(** * The Comparator as the specification words it *)

Module comparator_spec.

Import compare_training.

(** The non-empty series a snapshot holds for a metric, if any. *)
Definition metric_series (d : snapshot) (metric : string)
  : option (list float) :=
  match d with
  | Some d' =>
      match dict_get d' metric with
      | Some s => if nonempty (values s) then Some (values s) else None
      | None => None
      end
  | None => None
  end.

(** The final value of a series. *)
Definition final (vals : list float) : float := List.last vals 0%float.

(** The summary of a non-empty series: final, min, max, mean, std and
    the sample count. *)
Definition summary_of (vals : list float) : summary :=
  mkSummary (final vals)
            (fold_left min_step (tl vals) (hd 0%float vals))
            (fold_left max_step (tl vals) (hd 0%float vals))
            (np.mean vals) (np.std vals) (Z.of_nat (List.length vals)).

(** One side's entry for a metric: a summary when the side has a
    non-empty series, the empty record otherwise. *)
Definition side_entry (d : snapshot) (metric : string) : option summary :=
  option_map summary_of (metric_series d metric).

(** Absolute improvement = strong.final - weak.final; relative
    improvement = absolute improvement / weak.final * 100, and 0 when
    weak.final is 0; strong is better when the improvement is negative,
    or positive for a metric whose name contains "psnr". *)
Definition improvement (metric : string) (weak_final strong_final : float)
  : comparison_record :=
  let absolute := PrimFloat.sub strong_final weak_final in
  mkComparison
    absolute
    (if PrimFloat.eqb weak_final 0%float then PyInt 0
     else PyFloat (PrimFloat.mul (PrimFloat.div absolute weak_final) 100%float))
    (if str_contains "psnr" metric
     then PrimFloat.ltb 0%float absolute
     else PrimFloat.ltb absolute 0%float).

(** The comparison entry for a metric: present when both sides have a
    non-empty series. *)
Definition comparison_entry (weak_data strong_data : snapshot)
           (metric : string) : option comparison_record :=
  match metric_series weak_data metric, metric_series strong_data metric with
  | Some vw, Some vs => Some (improvement metric (final vw) (final vs))
  | _, _ => None
  end.

(** One iteration of the loop, without the intermediate empty entries. *)
Definition analyze_step (weak_data strong_data : snapshot)
           (st : stats) (metric : string) : stats :=
  mkStats
    (dict_set (weak_supervision st) metric (side_entry weak_data metric))
    (dict_set (strong_supervision st) metric (side_entry strong_data metric))
    (dict_set (comparison st) metric
              (comparison_entry weak_data strong_data metric)).

(** The three-part record over the fixed list of metrics. *)
Definition expected_stats (weak_data strong_data : snapshot) : stats :=
  mkStats
    (map (fun m => (m, side_entry weak_data m)) metrics_to_analyze)
    (map (fun m => (m, side_entry strong_data m)) metrics_to_analyze)
    (map (fun m => (m, comparison_entry weak_data strong_data m))
         metrics_to_analyze).

(** A series free of NaN: the series on which [<=] is a total order, and
    the only ones that have a least and a greatest element. *)
Definition nan_free (vals : list float) : Prop :=
  forall x, In x vals -> is_nan x = false.

(** [r] holds the final value, the minimum, the maximum, the mean and the
    length of [vals]: the extremes are elements of the series, least and
    greatest when the series is free of NaN; the mean is numpy's sum
    divided by the count. *)
Definition summarises (r : summary) (vals : list float) : Prop :=
  final_value r = List.last vals 0%float /\
  In (min_value r) vals /\
  (nan_free vals ->
   forall y, In y vals -> PrimFloat.leb (min_value r) y = true) /\
  In (max_value r) vals /\
  (nan_free vals ->
   forall y, In y vals -> PrimFloat.leb y (max_value r) = true) /\
  mean_value r =
    PrimFloat.div (np.sum vals) (float_of_Z (Z.of_nat (List.length vals))) /\
  total_iterations r = Z.of_nat (List.length vals).

(** C6 as the specification words it: whatever the non-empty series of
    [metric] is, its summary holds the last element, the minimum, the
    maximum, the mean and the length. *)
Definition summary_as_specified (data : snapshot) (metric : string) : Prop :=
  forall vals,
    metric_series data metric = Some vals ->
    exists st r,
      outcome (compute_statistics data None "out") = Ok st /\
      dict_get (weak_supervision st) metric = Some (Some r) /\
      final_value r = List.last vals 0%float /\
      (forall y, In y vals -> PrimFloat.leb (min_value r) y = true) /\
      (forall y, In y vals -> PrimFloat.leb y (max_value r) = true) /\
      mean_value r = np.mean vals /\
      total_iterations r = Z.of_nat (List.length vals).

(** The first line of a metric's block in the summary table. *)
Definition metric_heading (metric : string) : event :=
  Print [Lit nl; Lit metric; Lit ":"].

Definition is_print (e : event) : Prop :=
  match e with
  | Print _ => True
  | _ => False
  end.

(** Whether reading a directory gives the Comparator any metric data. *)
Definition yields_data (w : world) (logdir : string) : bool :=
  match outcome (extract_tensorboard_data w logdir) with
  | Ok d => truthy d
  | Raise _ => false
  end.

Definition no_data_notice : event :=
  Print [Lit "No tensorboard data found in either directory!"].

Definition install_notice : event :=
  Print [Lit "Please install tensorboard: pip install tensorboard"].

(** The edge case of the specification, word for word: with no data on
    either side the call completes, prints the notice, draws nothing and
    still writes a comparison document. *)
Definition no_data_run_as_specified (w : world) (a : args) : Prop :=
  yields_data w (weak a) = false ->
  yields_data w (strong a) = false ->
  outcome (main w a) = Ok tt /\
  In no_data_notice (trace (main w a)) /\
  (forall path fig, ~ In (SaveFig path fig) (trace (main w a))) /\
  (exists path doc, In (WriteJson path doc) (trace (main w a))).

(** A reader reports once: it prints exactly one line. *)
Definition reports_once {A} (m : io A) : Prop :=
  exists line, trace m = [Print line].

(** The missing-dependency rule of the specification, word for word, for
    both readers. *)
Definition missing_library_as_specified (w : world) (dir : string) : Prop :=
  tensorboard_installed w = false ->
  (reports_once (extract_tensorboard_data w dir) /\
   outcome (extract_tensorboard_data w dir) = Ok None) /\
  (reports_once (monitor_training.get_latest_metrics w dir) /\
   outcome (monitor_training.get_latest_metrics w dir) = Ok None).

End comparator_spec.

(* ================================================================= *)
(** * The Argument Contract Check as the specification words it *)

Module contract_spec.

Import test_gt_depth.

(** The nine options with their documented defaults, and the text that
    opens the failure message of each default. *)
Definition documented_defaults : list (string * pyval * string) :=
  [ ("depth_dir", PyStr "", "Expected empty string, got ");
    ("depth_format", PyStr "png16", "Expected 'png16', got ");
    ("depth_units", PyStr "meters", "Expected 'meters', got ");
    ("depth_weight", PyFloat 2%float, "Expected 2.0, got ");
    ("depth_loss", PyStr "huber", "Expected 'huber', got ");
    ("depth_grad_weight", PyFloat 0.1%float, "Expected 0.1, got ");
    ("depth_warmup", PyInt 2000, "Expected 2000, got ");
    ("depth_valid_min", PyFloat 1e-4%float, "Expected 1e-4, got ");
    ("depth_valid_max", PyFloat 80%float, "Expected 80.0, got ") ].

(** The values of the literal override list. *)
Definition documented_overrides : dict pyval :=
  [ ("depth_dir", PyStr "/path/to/depths");
    ("depth_format", PyStr "exr");
    ("depth_units", PyStr "millimeters");
    ("depth_weight", PyFloat 3%float);
    ("depth_loss", PyStr "l1");
    ("depth_grad_weight", PyFloat 0.2%float);
    ("depth_warmup", PyInt 1000);
    ("depth_valid_min", PyFloat 0.1%float);
    ("depth_valid_max", PyFloat 100%float) ].

Definition option_names : list string :=
  map (fun d => fst (fst d)) documented_defaults.

(** The first option the namespace lacks. *)
Fixpoint first_missing (o : dict pyval) (names : list string) : option string :=
  match names with
  | [] => None
  | n :: names' => if hasattr o n then first_missing o names' else Some n
  end.

(** The defaults in order: the first one that differs fails with the
    expected and the actual value. *)
Fixpoint defaults_hold (o : dict pyval) (l : list (string * pyval * string))
  : result unit :=
  match l with
  | [] => Ok tt
  | (n, expected, text) :: l' =>
      match dict_get o n with
      | None => Raise (AttributeError n)
      | Some v =>
          if py_eq v expected then defaults_hold o l'
          else Raise (AssertionError (Some [Lit text; Show v]))
      end
  end.

(** The overrides in order: the first one that differs fails without a
    message. *)
Fixpoint overrides_hold (o : dict pyval) (l : dict pyval) : result unit :=
  match l with
  | [] => Ok tt
  | (n, expected) :: l' =>
      match dict_get o n with
      | None => Raise (AttributeError n)
      | Some v =>
          if py_eq v expected then overrides_hold o l'
          else Raise (AssertionError None)
      end
  end.

Definition defaults_confirmed : event :=
  Print [Lit check_mark;
         Lit " All GT depth arguments are correctly configured with expected defaults"].

Definition overrides_confirmed : event :=
  Print [Lit check_mark;
         Lit " Custom GT depth argument values are correctly parsed"].

(** The run of the check over a parsing surface [extract]. *)
Definition expected_run (extract : list string -> result (dict pyval))
  : io unit :=
  match extract [] with
  | Raise e => ([], Raise e)
  | Ok opt =>
      match first_missing opt option_names with
      | Some n =>
          ([], Raise (AssertionError (Some [Lit (n ++ " argument missing")])))
      | None =>
          match defaults_hold opt documented_defaults with
          | Raise e => ([], Raise e)
          | Ok _ =>
              match extract test_args_custom with
              | Raise e => ([defaults_confirmed], Raise e)
              | Ok opt_custom =>
                  match overrides_hold opt_custom documented_overrides with
                  | Raise e => ([defaults_confirmed], Raise e)
                  | Ok _ => ([defaults_confirmed; overrides_confirmed], Ok tt)
                  end
              end
          end
      end
  end.

(** Whether a failure message contains the name of a field. *)
Definition mentions (msg : option message) (field : string) : bool :=
  match msg with
  | Some fragments =>
      existsb (fun f => match f with
                        | Lit s => str_contains field s
                        | _ => false
                        end) fragments
  | None => false
  end.

(** The default of [field] read through [extract] differs from the
    documented one. *)
Definition default_differs (extract : list string -> result (dict pyval))
           (field : string) : Prop :=
  exists opt v expected text,
    extract [] = Ok opt /\
    In (field, expected, text) documented_defaults /\
    dict_get opt field = Some v /\ py_eq v expected = false.

(** The failure rule of the specification, word for word: a mismatch
    raises an assertion failure naming the violated field. *)
Definition mismatch_as_specified (extract : list string -> result (dict pyval))
           (field : string) : Prop :=
  default_differs extract field ->
  exists msg,
    outcome (test_gt_depth_args extract) = Raise (AssertionError msg) /\
    mentions msg field = true.

(** A parsing surface that differs from the documented one in a single
    default: [depth_weight] is 3.0. *)
Definition extract_heavier (argv : list string) : result (dict pyval) :=
  arguments.parse_args argv
    (dict_set arguments.depth_defaults "depth_weight" (PyFloat 3%float)).

End contract_spec.

(* ================================================================= *)
(** * Sample inputs *)

Module samples.

Definition one_series (metric : string) (vals : list float) : dict series :=
  [ (metric, mkSeries (map Z.of_nat (seq 1 (List.length vals))) vals) ].

Definition weak_zero : dict series := one_series "total_points" [0%float].
Definition strong_five : dict series := one_series "total_points" [5%float].

Definition weak_ten : dict series :=
  one_series "train_loss_patches/l1_loss" [12%float; 10%float].
Definition strong_eight : dict series :=
  one_series "train_loss_patches/l1_loss" [11%float; 8%float].

Definition psnr_tie : dict series :=
  one_series "train/loss_viewpoint - psnr" [20%float; 25%float].

Definition rising : dict series :=
  one_series "train_loss_patches/total_loss" [1%float; 2%float; 3%float].

(** A loss that diverged at its first step. *)
Definition nan_first : dict series :=
  one_series "train_loss_patches/total_loss"
             [PrimFloat.nan; 1%float; 2%float].

(** A machine with tensorboard and no event file anywhere. *)
Definition no_logs : world :=
  mkWorld true (fun _ => []) (fun _ => []) (fun _ => true)
          (fun _ => None) (fun _ => None).

(** A machine without tensorboard. *)
Definition no_tensorboard : world :=
  mkWorld false (fun _ => []) (fun _ => []) (fun _ => true)
          (fun _ => None) (fun _ => None).

(** A machine on which only the scene directory exists. *)
Definition scene_only : world :=
  mkWorld true (fun _ => []) (fun _ => [])
          (fun p => String.eqb p "data/scene") (fun _ => None) (fun _ => None).

Definition compare_args : compare_training.args :=
  compare_training.mkArgs "runs/weak" "runs/strong" "comparison_results".

Definition run_args : run_comparison.args :=
  run_comparison.mkArgs "data/scene" "data/depth" "data/gt" "comparison_training".

(** A machine without the directory [results]. *)
Definition no_parent : world :=
  mkWorld true (fun _ => []) (fun _ => []) (fun _ => true)
          (fun p => if String.eqb p "results/today"
                    then Some (OSError "FileNotFoundError") else None)
          (fun _ => None).

Definition nested_args : run_comparison.args :=
  run_comparison.mkArgs "data/scene" "data/depth" "data/gt" "results/today".


Definition two_children : run_comparison.children :=
  run_comparison.mkChildren 4101 4102 0 0 (fun _ => None) None.

Definition older_log : logfile :=
  mkLog "runs/weak/events.out.tfevents.1" "runs/weak" 1700000000%float.

Definition newer_log : logfile :=
  mkLog "runs/weak/tb/events.out.tfevents.2" "runs/weak/tb" 1700000600%float.

(** A machine with two event files under runs/weak; the newer one holds
    two events of [total_points], one of the L1 training loss and a tag
    the scripts do not look at. *)
Definition two_logs : world :=
  mkWorld true
    (fun d => if String.eqb d "runs/weak" then [older_log; newer_log] else [])
    (fun d => if String.eqb d "runs/weak/tb"
              then [ ("total_points",
                      [mkEvent 100 1000%float; mkEvent 200 1500%float]);
                     ("train_loss_patches/l1_loss", [mkEvent 100 0.5%float]);
                     ("iter_time", []) ]
              else [])
    (fun _ => true) (fun _ => None) (fun _ => None).

Definition two_logs_snapshot : dict series :=
  [ ("total_points", mkSeries [100%Z; 200%Z] [1000%float; 1500%float]);
    ("train_loss_patches/l1_loss", mkSeries [100%Z] [0.5%float]);
    ("iter_time", mkSeries [] []) ].

(** A clock that shows the format it is asked for. *)
Definition idle_tick : monitor_training.tick :=
  monitor_training.mkTick no_tensorboard (fun fmt => fmt).

Definition busy_tick : monitor_training.tick :=
  monitor_training.mkTick two_logs (fun fmt => fmt).

End samples.

(* ================================================================= *)
(** * Vocabulary for the readers, the figure and the entry points *)

Module readers_spec.

Import compare_training.

(** The series a reader builds from the events of one tag. *)
Definition series_of_events (events : list scalar_event) : series :=
  mkSeries (map step events) (map value events).

(** The entry the Live Monitor keeps for the events of one tag. *)
Definition latest_of_events (events : list scalar_event)
  : option monitor_training.latest :=
  match events with
  | [] => None
  | e :: events' =>
      let final := List.last events e in
      Some (monitor_training.mkLatest (step final) (value final)
              (Z.of_nat (List.length events)))
  end.

(** The line a side contributes to a metric's panel. *)
Definition side_line (d : snapshot) (metric fmt label : string)
  : list plot_line :=
  match d with
  | Some d' =>
      match dict_get d' metric with
      | Some s => [mkLine (steps s) (values s) fmt label]
      | None => []
      end
  | None => []
  end.

(** The panel of one metric. *)
Definition panel_of (weak_data strong_data : snapshot)
           (entry : string * string * string) : axes :=
  let '(metric, title, ylabel) := entry in
  mkAxes (side_line weak_data metric "b-" "Weak Supervision"
            ++ side_line strong_data metric "r-" "Strong Supervision")
         title "Iteration" ylabel true true.

Definition expected_figure (weak_data strong_data : snapshot) : figure :=
  map (panel_of weak_data strong_data) key_metrics.

(** Whether [ax.plot] accepts the side's series of [metric]: it has as
    many steps as values, or the side has no such series. *)
Definition side_aligned (d : snapshot) (metric : string) : bool :=
  match d with
  | Some d' =>
      match dict_get d' metric with
      | Some s => (List.length (steps s) =? List.length (values s))%nat
      | None => true
      end
  | None => true
  end.

(** Two snapshots whose series of the key metrics can all be drawn. *)
Definition plottable (weak_data strong_data : snapshot) : bool :=
  forallb (fun entry : string * string * string =>
             let '(metric, _, _) := entry in
             side_aligned weak_data metric && side_aligned strong_data metric)
          key_metrics.



(** Events that concern a child process. *)
Definition is_process_event (e : event) : Prop :=
  match e with
  | Popen _ | Wait _ | Terminate _ | Run _ => True
  | _ => False
  end.



(** What the Live Monitor keeps for a tag: the latest event of a
    monitored tag that has events. *)
Definition monitored_entry (ea : dict (list scalar_event)) (tag : string)
  : option monitor_training.latest :=
  if existsb (String.eqb tag) monitor_training.monitored_tags then
    match dict_get ea tag with
    | Some events => latest_of_events events
    | None => None
    end
  else None.

(** One iteration of the loop over the monitored tags. *)
Definition keep_latest (ea : dict (list scalar_event))
           (metrics : dict monitor_training.latest) (tag : string)
  : dict monitor_training.latest :=
  match dict_get ea tag with
  | Some events =>
      match latest_of_events events with
      | Some e => dict_set metrics tag e
      | None => metrics
      end
  | None => metrics
  end.

Definition no_metrics_notice (t : monitor_training.tick) : event :=
  Print [Lit "No metrics found at ";
         Lit (monitor_training.strftime t "%H:%M:%S");
         Lit " - training may not have started yet..."].

(** The process events of a trace, in order. *)
Definition process_events (t : list event) : list event :=
  filter (fun e => match e with
                   | Popen _ | Wait _ | Terminate _ | Run _ => true
                   | _ => false
                   end) t.

End readers_spec.

(* ================================================================= *)
(** * Facts about the Python layer *)

Section dict_facts.

Context {V : Type}.
Implicit Types (d : dict V) (k : string) (v : V).

Lemma dict_get_set_same d k v : dict_get (dict_set d k v) k = Some v.
Proof.
  induction d as [|[k' v'] d IH]; simpl.
  - now rewrite String.eqb_refl.
  - destruct (String.eqb k k') eqn:E; simpl; rewrite E; auto.
Qed.

Lemma dict_get_set_other d k k' v :
  k <> k' -> dict_get (dict_set d k v) k' = dict_get d k'.
Proof.
  intros Hne. induction d as [|[k0 v0] d IH]; simpl.
  - destruct (String.eqb k' k) eqn:E; auto.
    apply String.eqb_eq in E. congruence.
  - destruct (String.eqb k k0) eqn:E; simpl.
    + apply String.eqb_eq in E. subst k0.
      destruct (String.eqb k' k) eqn:E'; auto.
      apply String.eqb_eq in E'. congruence.
    + now rewrite IH.
Qed.

Lemma dict_set_twice d k v v' :
  dict_set (dict_set d k v) k v' = dict_set d k v'.
Proof.
  induction d as [|[k0 v0] d IH]; simpl.
  - now rewrite String.eqb_refl.
  - destruct (String.eqb k k0) eqn:E; simpl; rewrite E; congruence.
Qed.

Lemma dict_get_none_keys d k : dict_get d k = None <-> ~ In k (dict_keys d).
Proof.
  induction d as [|[k0 v0] d IH]; simpl.
  - tauto.
  - destruct (String.eqb k k0) eqn:E.
    + apply String.eqb_eq in E. subst. split; [discriminate | tauto].
    + apply String.eqb_neq in E. rewrite IH. split.
      * intros H [H'|H']; [congruence | tauto].
      * tauto.
Qed.

Lemma dict_set_fresh d k v :
  ~ In k (dict_keys d) -> dict_set d k v = d ++ [(k, v)].
Proof.
  induction d as [|[k0 v0] d IH]; simpl; intros Hk; auto.
  destruct (String.eqb k k0) eqn:E.
  - apply String.eqb_eq in E. subst. tauto.
  - rewrite IH; tauto.
Qed.

Lemma dict_keys_app d d' : dict_keys (d ++ d') = dict_keys d ++ dict_keys d'.
Proof. apply map_app. Qed.

Lemma dict_index_keys d k : In k (dict_keys d) -> exists v, dict_index d k = Ok v.
Proof.
  intros Hin. unfold dict_index.
  destruct (dict_get d k) eqn:E; eauto.
  apply dict_get_none_keys in E. tauto.
Qed.

(** A dictionary built key by key from a duplicate-free list. *)
Lemma dict_get_tabulate (f : string -> V) (ks : list string) k :
  In k ks -> dict_get (map (fun m => (m, f m)) ks) k = Some (f k).
Proof.
  induction ks as [|k0 ks IH]; simpl; [tauto|].
  destruct (String.eqb k k0) eqn:E.
  - apply String.eqb_eq in E. now subst.
  - apply String.eqb_neq in E. intros [H|H]; [congruence | auto].
Qed.

Lemma dict_keys_tabulate (f : string -> V) (ks : list string) :
  dict_keys (map (fun m => (m, f m)) ks) = ks.
Proof.
  unfold dict_keys. rewrite map_map. simpl. apply map_id.
Qed.

End dict_facts.

Section list_facts.

Context {A : Type}.

Lemma py_last_cons (x : A) (l : list A) (d : A) :
  py_last (x :: l) = Ok (List.last (x :: l) d).
Proof.
  revert x. induction l as [|y l IH]; intros x; [reflexivity|].
  change (py_last (x :: y :: l)) with (py_last (y :: l)).
  change (List.last (x :: y :: l) d) with (List.last (y :: l) d).
  apply IH.
Qed.

Lemma nonempty_cons (l : list A) :
  nonempty l = true -> exists x l', l = x :: l'.
Proof. destruct l; [discriminate | eauto]. Qed.

(** A loop whose body never raises yields what [fold_left] yields. *)
Lemma rfold_total {S} (body : S -> A -> result S) (step : S -> A -> S)
      (l : list A) (s : S) :
  (forall s x, body s x = Ok (step s x)) ->
  rfold body l s = Ok (fold_left step l s).
Proof.
  intros Hbody. revert s.
  induction l as [|x l IH]; intros s; simpl; [reflexivity|].
  rewrite Hbody. simpl. apply IH.
Qed.

Lemma for_each_trace (body : A -> io unit) (l : list A) :
  (forall x, outcome (body x) = Ok tt) ->
  for_each l body = (flat_map (fun x => trace (body x)) l, Ok tt).
Proof.
  intros Hbody. induction l as [|x l IH]; simpl; [reflexivity|].
  rewrite IH. specialize (Hbody x). unfold bind, outcome, trace in *.
  destruct (body x) as [t r]. simpl in *. now subst.
Qed.

End list_facts.

Section io_facts.

Context {A B : Type}.

Lemma bind_lift_ok (a : A) (k : A -> io B) : bind (lift (Ok a)) k = k a.
Proof. unfold bind, lift. now destruct (k a). Qed.

Lemma bind_lift_raise (e : exn) (k : A -> io B) :
  bind (lift (Raise e)) k = ([], Raise e).
Proof. reflexivity. Qed.

Lemma bind_ret (a : A) (k : A -> io B) : bind (ret a) k = k a.
Proof. unfold bind, ret. now destruct (k a). Qed.

Lemma bind_emit (e : event) (k : unit -> io B) :
  bind (emit e) k = (e :: trace (k tt), outcome (k tt)).
Proof. unfold bind, emit, trace, outcome. now destruct (k tt). Qed.

Lemma bind_print (line : message) (k : unit -> io B) :
  bind (print line) k = (Print line :: trace (k tt), outcome (k tt)).
Proof. apply bind_emit. Qed.

Lemma bind_ok (t : list event) (a : A) (k : A -> io B) :
  bind (t, Ok a) k = (t ++ trace (k a), outcome (k a)).
Proof. unfold bind, trace, outcome. now destruct (k a). Qed.

End io_facts.

(* ================================================================= *)
(** * Facts about binary64 comparison *)

Section float_order.

Lemma compare_cont_spec (m n : positive) :
  CompareSpec (m = n) (m < n)%positive (n < m)%positive (Pos.compare_cont Eq m n).
Proof. exact (Pos.compare_spec m n). Qed.

Ltac order_cases :=
  repeat match goal with
         | s : bool |- _ => destruct s
         end;
  simpl; try congruence; intros;
  repeat match goal with
         | H : context [Z.compare ?a ?b] |- _ =>
             destruct (Z.compare_spec a b); simpl in H; try congruence
         | |- context [Z.compare ?a ?b] =>
             destruct (Z.compare_spec a b); simpl; try congruence
         | H : context [Pos.compare_cont Eq ?a ?b] |- _ =>
             destruct (compare_cont_spec a b); simpl in H; try congruence
         | |- context [Pos.compare_cont Eq ?a ?b] =>
             destruct (compare_cont_spec a b); simpl; try congruence
         end;
  try lia.

Lemma SFleb_trans a b c :
  SFleb a b = true -> SFleb b c = true -> SFleb a c = true.
Proof.
  unfold SFleb.
  destruct a as [sa|sa| |sa ma ea], b as [sb|sb| |sb mb eb],
           c as [sc|sc| |sc mc ec]; simpl; try congruence; order_cases.
Qed.

Lemma SFltb_leb a b : SFltb a b = true -> SFleb a b = true.
Proof.
  unfold SFltb, SFleb. destruct (SFcompare a b) as [[| |]|]; congruence.
Qed.

Lemma SFleb_total a b :
  SFnan a = false -> SFnan b = false -> SFltb a b = false -> SFleb b a = true.
Proof.
  unfold SFltb, SFleb.
  destruct a as [sa|sa| |sa ma ea], b as [sb|sb| |sb mb eb];
    simpl; try congruence; order_cases.
Qed.

Lemma SFeqb_refl a : SFeqb a a = negb (SFnan a).
Proof.
  unfold SFeqb. destruct a as [sa|sa| |sa ma ea]; simpl; auto; order_cases.
Qed.

(** Equal floats are both zeros, both the same infinity, or the same
    finite number. *)
Lemma SFeqb_cases a b :
  SFeqb a b = true ->
  (exists s s', a = S754_zero s /\ b = S754_zero s') \/
  (exists s, a = S754_infinity s /\ b = S754_infinity s) \/
  (exists s m e, a = S754_finite s m e /\ b = S754_finite s m e).
Proof.
  unfold SFeqb.
  destruct a as [sa|sa| |sa ma ea], b as [sb|sb| |sb mb eb]; simpl;
    repeat match goal with
           | s : bool |- _ => destruct s
           end;
    simpl; try congruence; intros H; eauto 10.
  all: destruct (Z.compare_spec ea eb); try congruence;
    destruct (compare_cont_spec ma mb); simpl in H; try congruence;
    subst; eauto 10.
Qed.

(** The difference of two equal floats is a zero or, for infinities, NaN:
    it is neither below nor above zero. *)
Lemma SFsub_eq_sign a b :
  SFeqb b a = true ->
  SFltb (SF64sub a b) (S754_zero false) = false /\
  SFltb (S754_zero false) (SF64sub a b) = false.
Proof.
  intros H. apply SFeqb_cases in H.
  destruct H as [(s & s' & -> & ->)|[(s & -> & ->)|(s & m & e & -> & ->)]].
  - destruct s, s'; split; reflexivity.
  - destruct s; split; reflexivity.
  - unfold SF64sub, SFsub. rewrite Z.sub_diag. split; reflexivity.
Qed.

Lemma is_nan_spec x : is_nan x = SFnan (Prim2SF x).
Proof.
  unfold is_nan. rewrite FloatAxioms.eqb_spec, SFeqb_refl. apply negb_involutive.
Qed.

Lemma float_ltb_leb x y : PrimFloat.ltb x y = true -> PrimFloat.leb x y = true.
Proof. rewrite FloatAxioms.ltb_spec, FloatAxioms.leb_spec. apply SFltb_leb. Qed.

Lemma float_leb_trans x y z :
  PrimFloat.leb x y = true -> PrimFloat.leb y z = true -> PrimFloat.leb x z = true.
Proof. rewrite !FloatAxioms.leb_spec. apply SFleb_trans. Qed.

Lemma float_leb_total x y :
  is_nan x = false -> is_nan y = false ->
  PrimFloat.ltb x y = false -> PrimFloat.leb y x = true.
Proof. rewrite !is_nan_spec, FloatAxioms.ltb_spec, FloatAxioms.leb_spec. apply SFleb_total. Qed.

Lemma float_leb_refl x : is_nan x = false -> PrimFloat.leb x x = true.
Proof.
  intros Hx. apply float_leb_total; auto.
  rewrite FloatAxioms.ltb_spec. rewrite is_nan_spec in Hx.
  unfold SFltb. destruct (Prim2SF x) as [s|s| |s m e]; simpl in *;
    try congruence; order_cases.
Qed.

Lemma float_sub_eq_sign x y :
  PrimFloat.eqb y x = true ->
  PrimFloat.ltb (PrimFloat.sub x y) 0%float = false /\
  PrimFloat.ltb 0%float (PrimFloat.sub x y) = false.
Proof.
  rewrite FloatAxioms.eqb_spec, !FloatAxioms.ltb_spec, FloatAxioms.sub_spec.
  change (Prim2SF 0%float) with (S754_zero false).
  apply SFsub_eq_sign.
Qed.

Lemma float_zero_sign x :
  PrimFloat.eqb x 0%float = true ->
  PrimFloat.ltb x 0%float = false /\ PrimFloat.ltb 0%float x = false.
Proof.
  rewrite FloatAxioms.eqb_spec, !FloatAxioms.ltb_spec.
  change (Prim2SF 0%float) with (S754_zero false).
  unfold SFeqb, SFltb.
  destruct (Prim2SF x) as [s|s| |s m e]; simpl; try destruct s;
    simpl; split; congruence.
Qed.

End float_order.

Section extremes.

Import comparator_spec.

Lemma min_step_nan_free x y :
  is_nan x = false -> is_nan y = false -> is_nan (min_step x y) = false.
Proof. unfold min_step. now destruct (PrimFloat.ltb y x). Qed.

Lemma max_step_nan_free x y :
  is_nan x = false -> is_nan y = false -> is_nan (max_step x y) = false.
Proof. unfold max_step. now destruct (PrimFloat.ltb x y). Qed.

(** A series has a least element under [<=] only if it is free of NaN,
    and likewise for a greatest element: nothing compares with NaN. *)
Lemma least_element_nan_free vals m :
  (forall y, In y vals -> PrimFloat.leb m y = true) -> nan_free vals.
Proof.
  intros Hm y Hy. specialize (Hm y Hy).
  rewrite is_nan_spec. rewrite FloatAxioms.leb_spec in Hm.
  unfold SFleb in Hm.
  destruct (Prim2SF m), (Prim2SF y); simpl in *; congruence.
Qed.

Lemma greatest_element_nan_free vals m :
  (forall y, In y vals -> PrimFloat.leb y m = true) -> nan_free vals.
Proof.
  intros Hm y Hy. specialize (Hm y Hy).
  rewrite is_nan_spec. rewrite FloatAxioms.leb_spec in Hm.
  unfold SFleb in Hm.
  destruct (Prim2SF m), (Prim2SF y); simpl in *; congruence.
Qed.

Lemma fold_min_In l x : In (fold_left min_step l x) (x :: l).
Proof.
  revert x. induction l as [|a l IH]; intros x; simpl; [auto|].
  destruct (IH (min_step x a)) as [H|H]; [|auto].
  rewrite <- H. unfold min_step. destruct (PrimFloat.ltb a x); auto.
Qed.

Lemma fold_max_In l x : In (fold_left max_step l x) (x :: l).
Proof.
  revert x. induction l as [|a l IH]; intros x; simpl; [auto|].
  destruct (IH (max_step x a)) as [H|H]; [|auto].
  rewrite <- H. unfold max_step. destruct (PrimFloat.ltb x a); auto.
Qed.

Lemma fold_min_lower l x :
  nan_free (x :: l) ->
  forall y, In y (x :: l) -> PrimFloat.leb (fold_left min_step l x) y = true.
Proof.
  revert x. induction l as [|a l IH]; intros x Hnan y Hy.
  - destruct Hy as [<-|[]]. simpl. apply float_leb_refl, Hnan. now left.
  - assert (Hx : is_nan x = false) by (apply Hnan; simpl; auto).
    assert (Ha : is_nan a = false) by (apply Hnan; simpl; auto).
    assert (Hnan' : nan_free (min_step x a :: l)).
    { intros z [<-|Hz]; [now apply min_step_nan_free|].
      apply Hnan. simpl; auto. }
    simpl fold_left.
    assert (Hacc : PrimFloat.leb (fold_left min_step l (min_step x a))
                                 (min_step x a) = true)
      by (apply IH; simpl; auto).
    destruct Hy as [<-|[<-|Hy]].
    + eapply float_leb_trans; [exact Hacc|].
      unfold min_step. destruct (PrimFloat.ltb a x) eqn:E.
      * now apply float_ltb_leb.
      * now apply float_leb_refl.
    + eapply float_leb_trans; [exact Hacc|].
      unfold min_step. destruct (PrimFloat.ltb a x) eqn:E.
      * now apply float_leb_refl.
      * now apply float_leb_total.
    + apply IH; simpl; auto.
Qed.

Lemma fold_max_upper l x :
  nan_free (x :: l) ->
  forall y, In y (x :: l) -> PrimFloat.leb y (fold_left max_step l x) = true.
Proof.
  revert x. induction l as [|a l IH]; intros x Hnan y Hy.
  - destruct Hy as [<-|[]]. simpl. apply float_leb_refl, Hnan. now left.
  - assert (Hx : is_nan x = false) by (apply Hnan; simpl; auto).
    assert (Ha : is_nan a = false) by (apply Hnan; simpl; auto).
    assert (Hnan' : nan_free (max_step x a :: l)).
    { intros z [<-|Hz]; [now apply max_step_nan_free|].
      apply Hnan. simpl; auto. }
    simpl fold_left.
    assert (Hacc : PrimFloat.leb (max_step x a)
                     (fold_left max_step l (max_step x a)) = true)
      by (apply IH; simpl; auto).
    destruct Hy as [<-|[<-|Hy]].
    + eapply float_leb_trans; [|exact Hacc].
      unfold max_step. destruct (PrimFloat.ltb x a) eqn:E.
      * now apply float_ltb_leb.
      * now apply float_leb_refl.
    + eapply float_leb_trans; [|exact Hacc].
      unfold max_step. destruct (PrimFloat.ltb x a) eqn:E.
      * now apply float_leb_refl.
      * now apply float_leb_total.
    + apply IH; simpl; auto.
Qed.

End extremes.

(* ================================================================= *)
(** * The Comparator computes what the specification words *)

Section comparator_refinement.

Import compare_training comparator_spec.

Lemma summarize_ok x l : summarize (x :: l) = Ok (summary_of (x :: l)).
Proof.
  unfold summarize. rewrite (py_last_cons x l 0%float). reflexivity.
Qed.

Lemma has_metric_get d metric :
  has_metric d metric =
  match d with
  | Some d' => dict_in metric d'
  | None => false
  end.
Proof. destruct d as [[|p d']|]; reflexivity. Qed.

Lemma side_stats_ok d metric :
  side_stats d metric = Ok (side_entry d metric).
Proof.
  unfold side_stats, side_entry, metric_series.
  rewrite has_metric_get.
  destruct d as [d'|]; [|reflexivity].
  unfold snapshot_index, dict_in, dict_index.
  destruct (dict_get d' metric) as [s|]; [|reflexivity].
  cbn [rbind]. destruct (values s) as [|x l]; [reflexivity|].
  cbn [nonempty]. rewrite summarize_ok. reflexivity.
Qed.

Lemma metric_series_nonempty d metric vals :
  metric_series d metric = Some vals -> exists x l, vals = x :: l.
Proof.
  unfold metric_series. destruct d as [d'|]; [|discriminate].
  destruct (dict_get d' metric) as [s|]; [|discriminate].
  destruct (values s) as [|x l]; [discriminate|].
  intros [= <-]. eauto.
Qed.

Lemma compare_sides_ok weak_data strong_data metric :
  compare_sides weak_data strong_data metric =
  Ok (comparison_entry weak_data strong_data metric).
Proof.
  unfold compare_sides, comparison_entry, metric_series.
  rewrite !has_metric_get.
  destruct weak_data as [dw|]; [|reflexivity].
  unfold snapshot_index, dict_in, dict_index.
  destruct (dict_get dw metric) as [sw|]; [|reflexivity].
  destruct strong_data as [ds|]; [|now destruct (nonempty (values sw))].
  destruct (dict_get ds metric) as [ss|];
    [|now destruct (nonempty (values sw))].
  cbn [andb rbind].
  destruct (values sw) as [|xw lw]; [reflexivity|].
  destruct (values ss) as [|xs ls]; [reflexivity|].
  cbn [nonempty andb].
  rewrite (py_last_cons xs ls 0%float), (py_last_cons xw lw 0%float).
  cbn [rbind]. unfold improvement, final, float_nonzero, py_truediv.
  destruct (PrimFloat.eqb (last (xw :: lw) 0%float) 0%float); reflexivity.
Qed.

Lemma analyze_metric_ok weak_data strong_data st metric :
  analyze_metric weak_data strong_data st metric =
  Ok (analyze_step weak_data strong_data st metric).
Proof.
  unfold analyze_metric, analyze_step.
  rewrite !side_stats_ok, compare_sides_ok. cbn [rbind].
  destruct (side_entry weak_data metric), (side_entry strong_data metric),
    (comparison_entry weak_data strong_data metric);
    unfold set_weak, set_strong, set_comparison; cbn;
    rewrite ?dict_set_twice; reflexivity.
Qed.

Lemma analysis_ok weak_data strong_data :
  rfold (analyze_metric weak_data strong_data) metrics_to_analyze
        (mkStats [] [] []) =
  Ok (expected_stats weak_data strong_data).
Proof.
  rewrite (rfold_total _ (analyze_step weak_data strong_data))
    by (intros; apply analyze_metric_ok).
  reflexivity.
Qed.

Lemma report_metric_ok st metric : outcome (report_metric st metric) = Ok tt.
Proof.
  unfold report_metric.
  destruct (dict_get (comparison st) metric) as [[c|]|]; reflexivity.
Qed.

(** The whole of [compute_statistics]: the document written, the lines
    printed and the value returned. *)
Lemma compute_statistics_ok weak_data strong_data output_dir :
  let st := expected_stats weak_data strong_data in
  let path := path_join output_dir "comparison_summary.json" in
  compute_statistics weak_data strong_data output_dir =
  ( [ WriteJson path (stats_to_json st);
      Print [Lit nl; Lit (str_repeat "=" 80)];
      Print [Lit "TRAINING COMPARISON SUMMARY"];
      Print [Lit (str_repeat "=" 80)] ]
    ++ flat_map (fun m => trace (report_metric st m)) metrics_to_analyze
    ++ [ Print [Lit nl; Lit "Detailed statistics saved to: "; Lit path] ],
    Ok st ).
Proof.
  intros st path. unfold compute_statistics.
  rewrite analysis_ok, bind_lift_ok. fold st. fold path.
  rewrite (for_each_trace (report_metric st))
    by (intros; apply report_metric_ok).
  reflexivity.
Qed.

End comparator_refinement.

Section comparator_lookup.

Import compare_training comparator_spec.

Lemma metric_series_some d metric s :
  dict_get d metric = Some s -> values s <> [] ->
  metric_series (Some d) metric = Some (values s).
Proof.
  intros Hget Hne. unfold metric_series. rewrite Hget.
  destruct (values s); [congruence | reflexivity].
Qed.

Lemma statistics_returned weak_data strong_data output_dir :
  outcome (compute_statistics weak_data strong_data output_dir) =
  Ok (expected_stats weak_data strong_data).
Proof. now rewrite compute_statistics_ok. Qed.

Lemma weak_lookup weak_data strong_data metric :
  In metric metrics_to_analyze ->
  dict_get (weak_supervision (expected_stats weak_data strong_data)) metric =
  Some (side_entry weak_data metric).
Proof. intros. now apply (dict_get_tabulate (side_entry weak_data)). Qed.

Lemma strong_lookup weak_data strong_data metric :
  In metric metrics_to_analyze ->
  dict_get (strong_supervision (expected_stats weak_data strong_data)) metric =
  Some (side_entry strong_data metric).
Proof. intros. now apply (dict_get_tabulate (side_entry strong_data)). Qed.

Lemma comparison_lookup weak_data strong_data metric :
  In metric metrics_to_analyze ->
  dict_get (comparison (expected_stats weak_data strong_data)) metric =
  Some (comparison_entry weak_data strong_data metric).
Proof.
  intros. now apply (dict_get_tabulate (comparison_entry weak_data strong_data)).
Qed.

(** With a non-empty series on both sides the comparison entry is the
    improvement of the two final values. *)
Lemma comparison_of_finals dw ds sw ss metric output_dir :
  In metric metrics_to_analyze ->
  dict_get dw metric = Some sw -> values sw <> [] ->
  dict_get ds metric = Some ss -> values ss <> [] ->
  exists st,
    outcome (compute_statistics (Some dw) (Some ds) output_dir) = Ok st /\
    dict_get (comparison st) metric =
    Some (Some (improvement metric (final (values sw)) (final (values ss)))).
Proof.
  intros Hin Hw Hwne Hs Hsne.
  exists (expected_stats (Some dw) (Some ds)). split.
  - apply statistics_returned.
  - rewrite comparison_lookup by assumption. unfold comparison_entry.
    now rewrite (metric_series_some _ _ _ Hw Hwne),
                (metric_series_some _ _ _ Hs Hsne).
Qed.

End comparator_lookup.

(* ================================================================= *)
(** * Claims about the Comparator's comparison record *)

Section comparison_claims.

Import compare_training comparator_spec.

Local Open Scope float_scope.

(** C1: for a metric with a non-empty series in both snapshots, the
    comparison record has absolute improvement strong.final - weak.final
    and relative improvement absolute / weak.final * 100, the latter
    being 0 when weak.final equals 0.  The computation does not raise.
    In particular weak final 0.0 and strong final 5.0 on a metric without
    "psnr" in its name give absolute 5.0, relative 0 and strong_better
    False. *)
Theorem C1_improvement_fields :
  forall (dw ds : dict series) (sw ss : series) (metric output_dir : string),
    In metric metrics_to_analyze ->
    dict_get dw metric = Some sw -> values sw <> [] ->
    dict_get ds metric = Some ss -> values ss <> [] ->
    let weak_final := last (values sw) 0 in
    let strong_final := last (values ss) 0 in
    exists st comp,
      outcome (compute_statistics (Some dw) (Some ds) output_dir) = Ok st /\
      dict_get (comparison st) metric = Some (Some comp) /\
      absolute_improvement comp = strong_final - weak_final /\
      relative_improvement_percent comp =
        (if weak_final =? 0 then PyInt 0
         else PyFloat ((strong_final - weak_final) / weak_final * 100)) /\
      (str_contains "psnr" metric = false ->
       weak_final = 0 -> strong_final = 5 ->
       comp = mkComparison 5 (PyInt 0) false).
Proof.
  intros dw ds sw ss metric output_dir Hin Hw Hwne Hs Hsne weak_final strong_final.
  destruct (comparison_of_finals dw ds sw ss metric output_dir Hin Hw Hwne Hs Hsne)
    as (st & Hst & Hcomp).
  exists st, (improvement metric weak_final strong_final).
  repeat split; try assumption; try reflexivity.
  intros Hpsnr Hwf Hsf. unfold improvement.
  rewrite Hpsnr, Hwf, Hsf. reflexivity.
Qed.

(** C2: for a metric with a comparison record, strong_better holds
    exactly when the absolute improvement is below zero, and for a metric
    whose name contains "psnr" exactly when it is above zero.  Weak 10.0
    and strong 8.0 without "psnr" give -2.0, -20.0 and True; weak 20.0 and
    strong 25.0 on the PSNR metric give 5.0, 25.0 and True. *)
Theorem C2_strong_better_sign :
  forall (dw ds : dict series) (sw ss : series) (metric output_dir : string),
    In metric metrics_to_analyze ->
    dict_get dw metric = Some sw -> values sw <> [] ->
    dict_get ds metric = Some ss -> values ss <> [] ->
    let weak_final := last (values sw) 0 in
    let strong_final := last (values ss) 0 in
    exists st comp,
      outcome (compute_statistics (Some dw) (Some ds) output_dir) = Ok st /\
      dict_get (comparison st) metric = Some (Some comp) /\
      strong_better comp =
        (if str_contains "psnr" metric
         then 0 <? absolute_improvement comp
         else absolute_improvement comp <? 0) /\
      (str_contains "psnr" metric = false ->
       weak_final = 10 -> strong_final = 8 ->
       comp = mkComparison (-2) (PyFloat (-20)) true) /\
      (metric = "train/loss_viewpoint - psnr"%string ->
       weak_final = 20 -> strong_final = 25 ->
       comp = mkComparison 5 (PyFloat 25) true).
Proof.
  intros dw ds sw ss metric output_dir Hin Hw Hwne Hs Hsne weak_final strong_final.
  destruct (comparison_of_finals dw ds sw ss metric output_dir Hin Hw Hwne Hs Hsne)
    as (st & Hst & Hcomp).
  exists st, (improvement metric weak_final strong_final).
  repeat split; try assumption; try reflexivity.
  - intros Hpsnr Hwf Hsf. unfold improvement.
    rewrite Hpsnr, Hwf, Hsf. reflexivity.
  - intros Hm Hwf Hsf. unfold improvement.
    rewrite Hm, Hwf, Hsf. reflexivity.
Qed.

(** C10: when the weak and the strong final value are equal, or the
    absolute improvement is zero, strong_better is False whether or not
    the metric name contains "psnr". *)
Theorem C10_tie_is_not_better :
  forall (dw ds : dict series) (sw ss : series) (metric output_dir : string),
    In metric metrics_to_analyze ->
    dict_get dw metric = Some sw -> values sw <> [] ->
    dict_get ds metric = Some ss -> values ss <> [] ->
    let weak_final := last (values sw) 0 in
    let strong_final := last (values ss) 0 in
    (weak_final =? strong_final) = true \/
    (strong_final - weak_final =? 0) = true ->
    exists st comp,
      outcome (compute_statistics (Some dw) (Some ds) output_dir) = Ok st /\
      dict_get (comparison st) metric = Some (Some comp) /\
      strong_better comp = false.
Proof.
  intros dw ds sw ss metric output_dir Hin Hw Hwne Hs Hsne
         weak_final strong_final Htie.
  destruct (comparison_of_finals dw ds sw ss metric output_dir Hin Hw Hwne Hs Hsne)
    as (st & Hst & Hcomp).
  exists st, (improvement metric weak_final strong_final).
  repeat split; try assumption.
  assert (Hsign : (strong_final - weak_final <? 0) = false /\
                  (0 <? strong_final - weak_final) = false).
  { destruct Htie as [Heq|Hzero].
    - now apply float_sub_eq_sign.
    - now apply float_zero_sign. }
  unfold improvement. cbn [strong_better].
  destruct (str_contains "psnr" metric); tauto.
Qed.

End comparison_claims.

(* ================================================================= *)
(** * Claims about the summaries and the document *)

Section summary_claims.

Import compare_training comparator_spec.

Local Open Scope float_scope.

(** Adding to the negative zero changes nothing, the sign of a zero
    included. *)
Lemma neg_zero_add x : PrimFloat.add neg_zero x = x.
Proof.
  apply Prim2SF_inj. rewrite FloatAxioms.add_spec.
  change (Prim2SF neg_zero) with (S754_zero true).
  destruct (Prim2SF x) as [s|s| |s m e]; try reflexivity.
  destruct s; reflexivity.
Qed.

(** Below eight elements numpy adds from left to right. *)
Lemma sum_below_eight x l :
  (List.length (x :: l) < 8)%nat ->
  np.sum (x :: l) = fold_left PrimFloat.add l x.
Proof.
  intros Hlen. unfold np.sum.
  assert (Hseq : np.pairwise_sum (List.length (x :: l)) (x :: l)
                 = fold_left PrimFloat.add (x :: l) neg_zero).
  { apply Nat.ltb_lt in Hlen.
    destruct (List.length (x :: l)) eqn:Hn in |- * at 1;
      cbn [np.pairwise_sum]; rewrite Hlen; reflexivity. }
  rewrite Hseq. cbn [fold_left]. now rewrite !neg_zero_add.
Qed.

(** The depth [np.sum] gives to the recursion is enough: from the length
    of the array on, the sum no longer depends on it. *)
Lemma pairwise_sum_fuel (d1 d2 : nat) (a : list float) :
  (List.length a <= d1)%nat -> (List.length a <= d2)%nat ->
  np.pairwise_sum d1 a = np.pairwise_sum d2 a.
Proof.
  revert d2 a. induction d1 as [|d1 IH]; intros d2 a H1 H2.
  - destruct a; [|cbn in H1; lia]. now destruct d2.
  - destruct d2 as [|d2].
    { destruct a; [|cbn in H2; lia]. reflexivity. }
    cbn [np.pairwise_sum].
    destruct (Nat.ltb_spec (List.length a) 8); [reflexivity|].
    destruct (Nat.leb_spec (List.length a) 128); [reflexivity|].
    set (n2 := (List.length a / 2 - (List.length a / 2) mod 8)%nat).
    assert (Hn2 : (1 <= n2 < List.length a)%nat).
    { subst n2.
      pose proof (Nat.div_mod_eq (List.length a) 2) as Hd.
      pose proof (Nat.mod_upper_bound (List.length a) 2) as Hm.
      pose proof (Nat.mod_upper_bound (List.length a / 2) 8) as Hm8.
      lia. }
    f_equal; apply IH; rewrite ?length_firstn, ?length_skipn; lia.
Qed.

Lemma summary_of_summarises x l : summarises (summary_of (x :: l)) (x :: l).
Proof.
  unfold summarises, summary_of. cbn [final_value min_value max_value
    mean_value total_iterations hd tl].
  split; [reflexivity|].
  split; [apply fold_min_In|].
  split; [apply fold_min_lower|].
  split; [apply fold_max_In|].
  split; [apply fold_max_upper|].
  split; reflexivity.
Qed.

Lemma side_entry_summarises d metric vals :
  metric_series d metric = Some vals ->
  exists r, side_entry d metric = Some r /\ summarises r vals.
Proof.
  intros H. unfold side_entry. rewrite H.
  destruct (metric_series_nonempty _ _ _ H) as (x & l & ->).
  eexists. split; [reflexivity | apply summary_of_summarises].
Qed.

(** C6: for a non-empty series the side's summary has the last element
    as final_value, elements of the series as min_value and max_value,
    which are the least and the greatest when the series has no NaN,
    numpy's sum divided by the count as mean_value and the length as
    total_iterations; below eight elements that sum is the one taken
    from left to right; over [1.0, 2.0, 3.0] the five are 3.0, 1.0, 3.0,
    2.0 and 3. *)
Theorem C6_summary_statistics :
  forall (weak_data strong_data : snapshot) (metric output_dir : string),
    In metric metrics_to_analyze ->
    exists st,
      outcome (compute_statistics weak_data strong_data output_dir) = Ok st /\
      (forall vals, metric_series weak_data metric = Some vals ->
         exists r, dict_get (weak_supervision st) metric = Some (Some r) /\
                   summarises r vals) /\
      (forall vals, metric_series strong_data metric = Some vals ->
         exists r, dict_get (strong_supervision st) metric = Some (Some r) /\
                   summarises r vals) /\
      (forall x l, (List.length (x :: l) < 8)%nat ->
         np.sum (x :: l) = fold_left PrimFloat.add l x) /\
      summarize [1; 2; 3] = Ok (mkSummary 3 1 3 2 (np.std [1; 2; 3]) 3).
Proof.
  intros weak_data strong_data metric output_dir Hin.
  exists (expected_stats weak_data strong_data).
  split; [apply statistics_returned|].
  split; [|split; [|split; [exact sum_below_eight | reflexivity]]].
  - intros vals Hv. rewrite weak_lookup by assumption.
    destruct (side_entry_summarises _ _ _ Hv) as (r & -> & Hr). eauto.
  - intros vals Hv. rewrite strong_lookup by assumption.
    destruct (side_entry_summarises _ _ _ Hv) as (r & -> & Hr). eauto.
Qed.

Lemma report_metric_prints st metric :
  Forall is_print (trace (report_metric st metric)).
Proof.
  unfold report_metric.
  destruct (dict_get (comparison st) metric) as [[c|]|];
    cbn; repeat constructor.
Qed.

Lemma report_metric_silent st metric :
  dict_get (comparison st) metric = Some None ->
  trace (report_metric st metric) = [].
Proof. unfold report_metric. now intros ->. Qed.

(** A heading in a metric's block is that metric's own. *)
Lemma heading_in_report st metric metric' :
  In (metric_heading metric) (trace (report_metric st metric')) ->
  metric' = metric /\ exists c, dict_get (comparison st) metric' = Some (Some c).
Proof.
  unfold report_metric, metric_heading.
  destruct (dict_get (comparison st) metric') as [[c|]|]; cbn;
    [|tauto|tauto].
  intros [H|[H|[H|[H|[]]]]]; try discriminate.
  injection H as ->. eauto.
Qed.

Lemma heading_printed weak_data strong_data output_dir metric :
  In metric metrics_to_analyze ->
  In (metric_heading metric)
     (trace (compute_statistics weak_data strong_data output_dir)) ->
  exists c, comparison_entry weak_data strong_data metric = Some c.
Proof.
  intros Hin. rewrite compute_statistics_ok. cbn [trace fst].
  rewrite !in_app_iff, in_flat_map.
  intros [H|[(m' & Hm' & H)|H]].
  - unfold metric_heading in H. cbn in H.
    destruct H as [H|[H|[H|[H|[]]]]]; discriminate.
  - apply heading_in_report in H. destruct H as (-> & c & Hc).
    rewrite comparison_lookup in Hc by assumption.
    injection Hc as ->. eauto.
  - unfold metric_heading in H. cbn in H. destruct H as [H|[]].
    injection H as H _. rewrite <- H in Hin. cbn in Hin.
    repeat (destruct Hin as [Hin|Hin]; [discriminate|]). tauto.
Qed.

Lemma comparison_entry_none weak_data strong_data metric :
  metric_series weak_data metric = None \/
  metric_series strong_data metric = None ->
  comparison_entry weak_data strong_data metric = None.
Proof.
  unfold comparison_entry. intros [->| ->]; [reflexivity|].
  now destruct (metric_series weak_data metric).
Qed.

(** C4: for a metric of the fixed list that lacks a non-empty series on
    at least one side (absent from both snapshots, or present on one side
    only), nothing is raised, the comparison entry is the empty record,
    each side's entry is a summary exactly when that side has a non-empty
    series, and the summary table does not mention the metric. *)
Theorem C4_one_sided_metric :
  forall (weak_data strong_data : snapshot) (metric output_dir : string),
    In metric metrics_to_analyze ->
    metric_series weak_data metric = None \/
    metric_series strong_data metric = None ->
    exists st,
      outcome (compute_statistics weak_data strong_data output_dir) = Ok st /\
      dict_get (comparison st) metric = Some None /\
      dict_get (weak_supervision st) metric =
        Some (option_map summary_of (metric_series weak_data metric)) /\
      dict_get (strong_supervision st) metric =
        Some (option_map summary_of (metric_series strong_data metric)) /\
      trace (report_metric st metric) = [] /\
      ~ In (metric_heading metric)
           (trace (compute_statistics weak_data strong_data output_dir)).
Proof.
  intros weak_data strong_data metric output_dir Hin Hside.
  pose proof (comparison_entry_none _ _ _ Hside) as Hnone.
  exists (expected_stats weak_data strong_data).
  split; [apply statistics_returned|].
  assert (Hc : dict_get (comparison (expected_stats weak_data strong_data))
                        metric = Some None)
    by (rewrite comparison_lookup by assumption; now rewrite Hnone).
  repeat split.
  - exact Hc.
  - now apply weak_lookup.
  - now apply strong_lookup.
  - now apply report_metric_silent.
  - intros H. apply heading_printed in H; [|assumption].
    destruct H as (c & H). congruence.
Qed.

End summary_claims.

Section document_claims.

Import compare_training comparator_spec.

Lemma statistics_prints weak_data strong_data output_dir :
  let st := expected_stats weak_data strong_data in
  exists rest,
    compute_statistics weak_data strong_data output_dir =
    (WriteJson (path_join output_dir "comparison_summary.json")
               (stats_to_json st) :: rest, Ok st) /\
    Forall is_print rest.
Proof.
  intros st. rewrite compute_statistics_ok. fold st.
  eexists. split; [reflexivity|].
  repeat (apply Forall_cons; [exact I|]).
  apply Forall_app. split; [|repeat constructor].
  apply Forall_flat_map, Forall_forall. intros m _.
  apply report_metric_prints.
Qed.

(** C9: the document written by [compute_statistics] has exactly the
    sections weak_supervision, strong_supervision and comparison; each
    section has exactly the five metric names as its keys, in order; a
    key is mapped to the empty record when its side, or for the
    comparison either side, has no non-empty series.  It is the only
    document written. *)
Theorem C9_document_layout :
  forall (weak_data strong_data : snapshot) (output_dir : string),
    exists W S C rest st,
      compute_statistics weak_data strong_data output_dir =
      (WriteJson (path_join output_dir "comparison_summary.json")
                 (JObject [ ("weak_supervision", JObject W);
                            ("strong_supervision", JObject S);
                            ("comparison", JObject C) ]) :: rest,
       Ok st) /\
      Forall is_print rest /\
      map fst W = metrics_to_analyze /\
      map fst S = metrics_to_analyze /\
      map fst C = metrics_to_analyze /\
      (forall m, In m metrics_to_analyze ->
                 metric_series weak_data m = None -> In (m, JObject []) W) /\
      (forall m, In m metrics_to_analyze ->
                 metric_series strong_data m = None -> In (m, JObject []) S) /\
      (forall m, In m metrics_to_analyze ->
                 metric_series weak_data m = None \/
                 metric_series strong_data m = None ->
                 In (m, JObject []) C).
Proof.
  intros weak_data strong_data output_dir.
  destruct (statistics_prints weak_data strong_data output_dir)
    as (rest & Hrun & Hrest).
  do 3 eexists. exists rest. eexists.
  split; [exact Hrun|].
  split; [exact Hrest|].
  split; [reflexivity|]. split; [reflexivity|]. split; [reflexivity|].
  split; [|split].
  - intros m Hin Hnone. apply in_map_iff.
    exists (m, side_entry weak_data m). split.
    + unfold side_entry. now rewrite Hnone.
    + apply in_map_iff. eauto.
  - intros m Hin Hnone. apply in_map_iff.
    exists (m, side_entry strong_data m). split.
    + unfold side_entry. now rewrite Hnone.
    + apply in_map_iff. eauto.
  - intros m Hin Hnone. apply in_map_iff.
    exists (m, comparison_entry weak_data strong_data m). split.
    + cbn. now rewrite (comparison_entry_none _ _ _ Hnone).
    + apply in_map_iff. eauto.
Qed.

End document_claims.

(* ================================================================= *)
(** * Claims about the readers and the Comparator's entry point *)

Section reader_claims.

Import compare_training comparator_spec.

Lemma rfold_succeeds {A S} (body : S -> A -> result S) (l : list A) (s : S) :
  (forall s x, In x l -> exists s', body s x = Ok s') ->
  exists s', rfold body l s = Ok s'.
Proof.
  revert s. induction l as [|x l IH]; intros s Hbody; simpl; [eauto|].
  destruct (Hbody s x) as (s1 & ->); [now left|]. simpl.
  apply IH. intros s2 y Hy. apply Hbody. now right.
Qed.

Lemma py_max_by_cons {A} (key : A -> float) (x : A) (l : list A) :
  exists y, py_max_by key (x :: l) = Ok y.
Proof. simpl. eauto. Qed.

(** The Comparator's reader never raises and only prints. *)
Lemma extract_total (w : world) (logdir : string) :
  exists t d,
    extract_tensorboard_data w logdir = (t, Ok d) /\ Forall is_print t.
Proof.
  unfold extract_tensorboard_data.
  destruct (tensorboard_installed w); cbn [negb].
  - destruct (glob_tfevents w logdir) as [|f fs]; cbn [nonempty negb].
    + do 2 eexists. split; [reflexivity | repeat constructor].
    + destruct (py_max_by_cons st_mtime f fs) as (latest & ->).
      rewrite bind_lift_ok, bind_print.
      set (ea := event_store w (log_parent latest)).
      destruct (rfold_succeeds
                  (fun data tag =>
                     (scalar_events <- dict_index ea tag ;;
                      Ok (dict_set data tag
                            (mkSeries (map step scalar_events)
                                      (map value scalar_events))))%result)
                  (dict_keys ea) []) as (data & Hdata).
      { intros s tag Hin. destruct (dict_index_keys ea tag Hin) as (v & ->).
        simpl. eauto. }
      cbv zeta. rewrite Hdata, bind_lift_ok.
      do 2 eexists. split; [reflexivity | repeat constructor].
  - do 2 eexists. split; [reflexivity | repeat constructor].
Qed.

Lemma yields_data_false (w : world) (logdir : string) :
  yields_data w logdir = false ->
  exists t d,
    extract_tensorboard_data w logdir = (t, Ok d) /\
    Forall is_print t /\ truthy d = false.
Proof.
  unfold yields_data.
  destruct (extract_total w logdir) as (t & d & H & Ht).
  rewrite H. cbn. eauto 6.
Qed.

Lemma prints_hold_no_figure (t : list event) :
  Forall is_print t ->
  (forall path fig, ~ In (SaveFig path fig) t) /\
  (forall path doc, ~ In (WriteJson path doc) t) /\
  (forall path, ~ In (Mkdir path) t).
Proof.
  intros Ht. rewrite Forall_forall in Ht.
  repeat split; intros; intros Hin; exact (Ht _ Hin).
Qed.

(** C3: when neither directory yields metric data, [main] completes
    without raising, its last action is to print the notice, and it
    creates no directory, draws no figure and writes no document. *)
Theorem C3_no_data_run :
  forall (w : world) (a : args),
    yields_data w (weak a) = false ->
    yields_data w (strong a) = false ->
    outcome (main w a) = Ok tt /\
    (exists before, trace (main w a) = before ++ [no_data_notice]) /\
    Forall is_print (trace (main w a)) /\
    (forall path fig, ~ In (SaveFig path fig) (trace (main w a))) /\
    (forall path doc, ~ In (WriteJson path doc) (trace (main w a))) /\
    (forall path, ~ In (Mkdir path) (trace (main w a))).
Proof.
  intros w a Hw Hs.
  destruct (yields_data_false _ _ Hw) as (tw & dw & Hrw & Hpw & Hdw).
  destruct (yields_data_false _ _ Hs) as (ts & ds & Hrs & Hps & Hds).
  assert (Hmain : main w a =
                  (Print [Lit "Extracting tensorboard data..."]
                     :: tw ++ ts ++ [no_data_notice], Ok tt)).
  { unfold main. rewrite bind_print, Hrw, bind_ok, Hrs, bind_ok.
    rewrite Hdw, Hds. reflexivity. }
  assert (Hprints : Forall is_print (trace (main w a))).
  { rewrite Hmain. cbn. constructor; [exact I|].
    apply Forall_app. split; [assumption|].
    apply Forall_app. split; [assumption | repeat constructor]. }
  split; [now rewrite Hmain|].
  split.
  - exists (Print [Lit "Extracting tensorboard data..."] :: tw ++ ts).
    rewrite Hmain. cbn. now rewrite <- app_assoc.
  - split; [assumption|]. now apply prints_hold_no_figure.
Qed.

(** C5: when tensorboard cannot be imported, both readers return the
    absent result and do not raise.  The Comparator's reader prints the
    install notice once per call, hence twice in [main], which reads two
    directories; the Live Monitor's reader prints nothing. *)
Theorem C5_missing_tensorboard :
  forall (w : world) (dir : string) (a : args),
    tensorboard_installed w = false ->
    extract_tensorboard_data w dir = ([install_notice], Ok None) /\
    monitor_training.get_latest_metrics w dir = ([], Ok None) /\
    main w a =
      ([ Print [Lit "Extracting tensorboard data..."];
         install_notice; install_notice; no_data_notice ], Ok tt).
Proof.
  intros w dir a Hw.
  assert (Hread : forall d,
             extract_tensorboard_data w d = ([install_notice], Ok None))
    by (intros d; unfold extract_tensorboard_data; now rewrite Hw).
  split; [apply Hread|]. split.
  - unfold monitor_training.get_latest_metrics. now rewrite Hw.
  - unfold main. now rewrite !Hread.
Qed.

End reader_claims.

(* ================================================================= *)
(** * Claims about the Run Orchestrator *)

Section orchestrator_claims.

Import run_comparison.

(** C8: when one of the scene path, the weak depth path and the
    ground-truth depth path does not exist, [main] prints one line that
    names a path that is missing (the first in that order) and returns;
    it creates nothing and starts, waits for or stops no process. *)
Theorem C8_missing_path_aborts :
  forall (w : world) (ch : children) (a : args),
    path_exists w (scene a) && path_exists w (depth_images a)
      && path_exists w (gt_depth a) = false ->
    exists label path,
      In (label, path)
         [ ("Scene path does not exist: ", scene a);
           ("Depth images path does not exist: ", depth_images a);
           ("GT depth path does not exist: ", gt_depth a) ] /\
      path_exists w path = false /\
      main w ch a = ([Print [Lit label; Lit path]], Ok tt) /\
      (forall cmd, ~ In (Popen cmd) (trace (main w ch a))) /\
      (forall cmd, ~ In (Run cmd) (trace (main w ch a))).
Proof.
  intros w ch a Hmissing. unfold main.
  destruct (path_exists w (scene a)) eqn:Hscene; cbn [negb].
  - destruct (path_exists w (depth_images a)) eqn:Hdepth; cbn [negb].
    + destruct (path_exists w (gt_depth a)) eqn:Hgt; [discriminate|].
      cbn [negb]. do 2 eexists.
      split; [right; right; left; reflexivity|].
      split; [exact Hgt|]. split; [reflexivity|].
      split; intros cmd [H|[]]; discriminate.
    + do 2 eexists. split; [right; left; reflexivity|].
      split; [exact Hdepth|]. split; [reflexivity|].
      split; intros cmd [H|[]]; discriminate.
  - do 2 eexists. split; [left; reflexivity|].
    split; [exact Hscene|]. split; [reflexivity|].
    split; intros cmd [H|[]]; discriminate.
Qed.

End orchestrator_claims.

(* ================================================================= *)
(** * Claims about the Argument Contract Check *)

Section contract_claims.

Import test_gt_depth contract_spec.

Ltac step_check :=
  match goal with
  | |- context [dict_get ?o ?n] =>
      destruct (dict_get o n) eqn:?; cbn; try reflexivity
  | |- context [py_eq ?v ?e] =>
      destruct (py_eq v e) eqn:?; cbn; try reflexivity
  end.

Lemma check_defaults_run (extract : list string -> result (dict pyval)) :
  check_defaults extract =
  match extract [] with
  | Raise e => Raise e
  | Ok opt =>
      match first_missing opt option_names with
      | Some n => Raise (AssertionError (Some [Lit (n ++ " argument missing")]))
      | None => defaults_hold opt documented_defaults
      end
  end.
Proof.
  unfold check_defaults, assert_hasattr, assert_default, getattr, py_assert,
    hasattr, dict_in.
  destruct (extract []) as [opt|e]; [|reflexivity].
  cbn. unfold hasattr, dict_in. repeat step_check.
Qed.

Lemma check_custom_run (extract : list string -> result (dict pyval)) :
  check_custom extract =
  match extract test_args_custom with
  | Raise e => Raise e
  | Ok opt_custom => overrides_hold opt_custom documented_overrides
  end.
Proof.
  unfold check_custom, assert_custom, getattr, py_assert.
  destruct (extract test_args_custom) as [opt|e]; [|reflexivity].
  cbn. repeat step_check.
Qed.

Lemma contract_check_run (extract : list string -> result (dict pyval)) :
  test_gt_depth_args extract = expected_run extract.
Proof.
  unfold test_gt_depth_args, expected_run.
  rewrite check_defaults_run, check_custom_run.
  destruct (extract []) as [opt|e]; [|reflexivity].
  destruct (first_missing opt option_names); [reflexivity|].
  destruct (defaults_hold opt documented_defaults) as [[]|e]; [|reflexivity].
  rewrite bind_lift_ok, bind_print.
  destruct (extract test_args_custom) as [oc|e]; [|reflexivity].
  destruct (overrides_hold oc documented_overrides) as [[]|e]; reflexivity.
Qed.

End contract_claims.

Section contract_theorems.

Import test_gt_depth contract_spec.

Lemma parse_one_option name default text v ns :
  dict_get arguments.depth_defaults name = Some default ->
  arguments.convert default text = Some v ->
  arguments.parse_args [("--" ++ name)%string; text] ns = Ok (dict_set ns name v).
Proof.
  intros Hd Hc. cbn [arguments.parse_args arguments.option_name append].
  now rewrite Hd, Hc.
Qed.

(** C7: on the argument surface the specification documents, the check
    finds the nine defaults, the literal override list gives back the
    nine override values, and both confirmations are printed; an option
    given on the command line changes its own entry and no other.  On any
    surface the check fails at the first violated expectation: a missing
    option with a message that names it, a wrong default with a message
    that gives the expected and the actual value and not the name, a
    wrong override with no message. *)
Theorem C7_contract_check :
  arguments.extract [] =
    Ok (map (fun d => (fst (fst d), snd (fst d))) documented_defaults) /\
  arguments.extract test_args_custom = Ok documented_overrides /\
  test_gt_depth_args arguments.extract =
    ([defaults_confirmed; overrides_confirmed], Ok tt) /\
  (forall name default text v ns other,
     dict_get arguments.depth_defaults name = Some default ->
     arguments.convert default text = Some v ->
     arguments.parse_args [("--" ++ name)%string; text] ns =
       Ok (dict_set ns name v) /\
     (name <> other -> dict_get (dict_set ns name v) other = dict_get ns other)) /\
  (forall extract, test_gt_depth_args extract = expected_run extract) /\
  (forall n, In n option_names ->
             mentions (Some [Lit (n ++ " argument missing")]) n = true) /\
  (forall n expected text v,
     In (n, expected, text) documented_defaults ->
     mentions (Some [Lit text; Show v]) n = false) /\
  (forall n, mentions None n = false).
Proof.
  split; [reflexivity|]. split; [reflexivity|]. split; [reflexivity|].
  split.
  { intros name default text v ns other Hd Hc. split.
    - now apply parse_one_option with default.
    - now apply dict_get_set_other. }
  split; [apply contract_check_run|].
  split.
  { intros n Hin. cbn in Hin.
    repeat (destruct Hin as [<-|Hin]; [reflexivity|]). destruct Hin. }
  split; [|reflexivity].
  intros n expected text v Hin. cbn in Hin.
  repeat (destruct Hin as [[= <- <- <-]|Hin]; [reflexivity|]). destruct Hin.
Qed.

(** C7, as the specification words the failure: with the default of
    [depth_weight] at 3.0 the check raises an assertion whose message,
    "Expected 2.0, got 3.0", does not name the field. *)
Lemma C7_message_omits_field :
  ~ mismatch_as_specified extract_heavier "depth_weight".
Proof.
  intros H. destruct H as (msg & Hout & Hmsg).
  - exists (dict_set arguments.depth_defaults "depth_weight" (PyFloat 3%float)),
           (PyFloat 3%float), (PyFloat 2%float), "Expected 2.0, got ".
    repeat split.
    cbn. do 3 right. left. reflexivity.
  - vm_compute in Hout. injection Hout as <-. discriminate Hmsg.
Qed.

End contract_theorems.

(* ================================================================= *)
(** * The claims at sample inputs *)

Section at_samples.

Import compare_training comparator_spec samples.

Local Open Scope float_scope.

(** C1 at weak final 0.0 and strong final 5.0 on [total_points]. *)
Lemma C1_at_zero_baseline :
  exists st comp,
    outcome (compute_statistics (Some weak_zero) (Some strong_five) "out")
      = Ok st /\
    dict_get (comparison st) "total_points" = Some (Some comp) /\
    comp = mkComparison 5 (PyInt 0) false.
Proof.
  destruct (C1_improvement_fields weak_zero strong_five
              (mkSeries [1%Z] [0]) (mkSeries [1%Z] [5])
              "total_points" "out")
    as (st & comp & Hst & Hcomp & _ & _ & Hexample).
  - simpl. do 4 right. left. reflexivity.
  - reflexivity.
  - discriminate.
  - reflexivity.
  - discriminate.
  - exists st, comp. split; [exact Hst|]. split; [exact Hcomp|].
    apply Hexample; reflexivity.
Defined.

(** C2 at weak final 10.0 and strong final 8.0 on the L1 training loss. *)
Lemma C2_at_lower_loss :
  exists st comp,
    outcome (compute_statistics (Some weak_ten) (Some strong_eight) "out")
      = Ok st /\
    dict_get (comparison st) "train_loss_patches/l1_loss" = Some (Some comp) /\
    comp = mkComparison (-2) (PyFloat (-20)) true.
Proof.
  destruct (C2_strong_better_sign weak_ten strong_eight
              (mkSeries [1%Z; 2%Z] [12; 10]) (mkSeries [1%Z; 2%Z] [11; 8])
              "train_loss_patches/l1_loss" "out")
    as (st & comp & Hst & Hcomp & _ & Hexample & _).
  - simpl. right. left. reflexivity.
  - reflexivity.
  - discriminate.
  - reflexivity.
  - discriminate.
  - exists st, comp. split; [exact Hst|]. split; [exact Hcomp|].
    apply Hexample; reflexivity.
Defined.

(** C10 at equal final values 25.0 on the PSNR metric. *)
Lemma C10_at_psnr_tie :
  exists st comp,
    outcome (compute_statistics (Some psnr_tie) (Some psnr_tie) "out")
      = Ok st /\
    dict_get (comparison st) "train/loss_viewpoint - psnr" = Some (Some comp) /\
    strong_better comp = false.
Proof.
  apply (C10_tie_is_not_better psnr_tie psnr_tie
           (mkSeries [1%Z; 2%Z] [20; 25]) (mkSeries [1%Z; 2%Z] [20; 25])
           "train/loss_viewpoint - psnr" "out").
  - simpl. do 3 right. left. reflexivity.
  - reflexivity.
  - discriminate.
  - reflexivity.
  - discriminate.
  - left. reflexivity.
Defined.

(** C4 at a metric the weak side has and the strong side lacks. *)
Lemma C4_at_weak_only :
  exists st,
    outcome (compute_statistics (Some rising) None "out") = Ok st /\
    dict_get (comparison st) "train_loss_patches/total_loss" = Some None /\
    dict_get (weak_supervision st) "train_loss_patches/total_loss" =
      Some (Some (summary_of [1; 2; 3])) /\
    dict_get (strong_supervision st) "train_loss_patches/total_loss" =
      Some None /\
    trace (report_metric st "train_loss_patches/total_loss") = [] /\
    ~ In (metric_heading "train_loss_patches/total_loss")
         (trace (compute_statistics (Some rising) None "out")).
Proof.
  apply (C4_one_sided_metric (Some rising) None
           "train_loss_patches/total_loss" "out").
  - simpl. left. reflexivity.
  - right. reflexivity.
Defined.

(** C6 at the series [1.0, 2.0, 3.0] on the weak side. *)
Lemma C6_at_rising_series :
  exists st r,
    outcome (compute_statistics (Some rising) None "out") = Ok st /\
    dict_get (weak_supervision st) "train_loss_patches/total_loss" =
      Some (Some r) /\
    summarises r [1; 2; 3].
Proof.
  destruct (C6_summary_statistics (Some rising) None
              "train_loss_patches/total_loss" "out")
    as (st & Hst & Hweak & _ & _ & _).
  - simpl. left. reflexivity.
  - destruct (Hweak [1; 2; 3]) as (r & Hr & Hsum); [reflexivity|].
    exists st, r. split; [exact Hst|]. split; [exact Hr | exact Hsum].
Defined.

(** C6, as the specification words it, on a series that starts with NaN:
    nothing is below NaN, and [min] keeps the NaN it started from. *)
Lemma C6_nan_has_no_minimum :
  ~ summary_as_specified (Some nan_first) "train_loss_patches/total_loss".
Proof.
  intros H.
  destruct (H [PrimFloat.nan; 1; 2] eq_refl)
    as (st & r & Hst & Hr & _ & Hmin & _).
  vm_compute in Hst. injection Hst as <-.
  vm_compute in Hr. injection Hr as <-.
  specialize (Hmin 1 (or_intror (or_introl eq_refl))).
  vm_compute in Hmin. discriminate.
Qed.

(** C3 on a machine without any event file. *)
Lemma C3_at_no_logs :
  outcome (main no_logs compare_args) = Ok tt /\
  (exists before, trace (main no_logs compare_args) = before ++ [no_data_notice]) /\
  Forall is_print (trace (main no_logs compare_args)) /\
  (forall path fig, ~ In (SaveFig path fig) (trace (main no_logs compare_args))) /\
  (forall path doc, ~ In (WriteJson path doc) (trace (main no_logs compare_args))) /\
  (forall path, ~ In (Mkdir path) (trace (main no_logs compare_args))).
Proof.
  apply (C3_no_data_run no_logs compare_args); reflexivity.
Defined.

(** C3, as the specification words the edge case: on a machine without
    any event file no comparison document is written. *)
Lemma C3_no_document_written :
  ~ no_data_run_as_specified no_logs compare_args.
Proof.
  intros H. destruct H as (_ & _ & _ & path & doc & Hin);
    [reflexivity | reflexivity |].
  cbn in Hin. repeat (destruct Hin as [Hin|Hin]; [discriminate|]).
  destruct Hin.
Qed.

(** C5 on a machine without tensorboard. *)
Lemma C5_at_no_tensorboard :
  extract_tensorboard_data no_tensorboard "runs/weak"
    = ([install_notice], Ok None) /\
  monitor_training.get_latest_metrics no_tensorboard "runs/weak"
    = ([], Ok None) /\
  main no_tensorboard compare_args =
    ([ Print [Lit "Extracting tensorboard data..."];
       install_notice; install_notice; no_data_notice ], Ok tt).
Proof.
  apply (C5_missing_tensorboard no_tensorboard "runs/weak" compare_args).
  reflexivity.
Defined.

(** C5, as the specification words the rule: the Live Monitor's reader
    does not report the missing library. *)
Lemma C5_monitor_is_silent :
  ~ missing_library_as_specified no_tensorboard "runs/weak".
Proof.
  intros H. destruct H as (_ & (line & Hline) & _); [reflexivity|].
  discriminate Hline.
Qed.

(** C8 on a machine where only the scene directory exists. *)
Lemma C8_at_scene_only :
  exists label path,
    In (label, path)
       [ ("Scene path does not exist: ", "data/scene");
         ("Depth images path does not exist: ", "data/depth");
         ("GT depth path does not exist: ", "data/gt") ]%string /\
    path_exists scene_only path = false /\
    run_comparison.main scene_only two_children run_args
      = ([Print [Lit label; Lit path]], Ok tt) /\
    (forall cmd,
       ~ In (Popen cmd) (trace (run_comparison.main scene_only two_children run_args))) /\
    (forall cmd,
       ~ In (Run cmd) (trace (run_comparison.main scene_only two_children run_args))).
Proof.
  apply (C8_missing_path_aborts scene_only two_children run_args).
  reflexivity.
Defined.

(** With the three paths in place both trainers are started. *)
Lemma orchestrator_starts_both :
  let t := trace (run_comparison.main no_logs two_children run_args) in
  In (Popen (run_comparison.weak_cmd "data/scene" "data/depth"
               "comparison_training/weak_supervision")) t /\
  In (Popen (run_comparison.strong_cmd "data/scene" "data/gt"
               "comparison_training/strong_supervision")) t.
Proof.
  cbv zeta. vm_compute. split.
  - do 12 right. left. reflexivity.
  - do 16 right. left. reflexivity.
Qed.

End at_samples.

(* ================================================================= *)
(** * Further properties: the Comparator's reader *)

Section reader_properties.

Import compare_training comparator_spec readers_spec.

Lemma fold_max_by_In {A} (key : A -> float) (l : list A) (x : A) :
  In (fold_left (fun m y => if PrimFloat.ltb (key m) (key y) then y else m) l x)
     (x :: l).
Proof.
  revert x. induction l as [|a l IH]; intros x; simpl; [auto|].
  destruct (PrimFloat.ltb (key x) (key a)).
  - destruct (IH a) as [H|H]; auto.
  - destruct (IH x) as [H|H]; auto.
Qed.

Lemma fold_max_by_upper {A} (key : A -> float) (l : list A) (x : A) :
  (forall y, In y (x :: l) -> is_nan (key y) = false) ->
  forall y, In y (x :: l) ->
    PrimFloat.leb (key y)
      (key (fold_left (fun m y => if PrimFloat.ltb (key m) (key y) then y else m)
                      l x)) = true.
Proof.
  revert x. induction l as [|a l IH]; intros x Hnan y Hy.
  - destruct Hy as [<-|[]]. simpl. apply float_leb_refl, Hnan. now left.
  - assert (Hx : is_nan (key x) = false) by (apply Hnan; simpl; auto).
    assert (Ha : is_nan (key a) = false) by (apply Hnan; simpl; auto).
    simpl fold_left.
    destruct (PrimFloat.ltb (key x) (key a)) eqn:E.
    + assert (Hnan' : forall z, In z (a :: l) -> is_nan (key z) = false)
        by (intros z Hz; apply Hnan; now right).
      destruct Hy as [<-|Hy]; [|now apply IH].
      eapply float_leb_trans; [apply float_ltb_leb, E|].
      apply IH; simpl; auto.
    + assert (Hnan' : forall z, In z (x :: l) -> is_nan (key z) = false)
        by (intros z [<-|Hz]; [assumption | apply Hnan; simpl; auto]).
      destruct Hy as [<-|[<-|Hy]].
      * apply IH; simpl; auto.
      * eapply float_leb_trans; [apply float_leb_total, E; assumption|].
        apply IH; simpl; auto.
      * apply IH; simpl; auto.
Qed.

(** What [max(files, key=mtime)] picks. *)
Lemma py_max_by_most_recent (files : list logfile) (latest : logfile) :
  py_max_by st_mtime files = Ok latest ->
  (forall f, In f files -> is_nan (st_mtime f) = false) ->
  In latest files /\
  forall f, In f files -> PrimFloat.leb (st_mtime f) (st_mtime latest) = true.
Proof.
  destruct files as [|x l]; [discriminate|]. simpl.
  intros [= <-] Hnan. split.
  - apply fold_max_by_In.
  - now apply fold_max_by_upper.
Qed.

(** The loop that fills [data] from the event store. *)
Lemma collect_series (ea : dict (list scalar_event)) (tags : list string)
      (data0 : dict series) :
  (forall t, In t tags -> In t (dict_keys ea)) ->
  exists data,
    rfold (fun data tag =>
             (scalar_events <- dict_index ea tag ;;
              Ok (dict_set data tag
                    (mkSeries (map step scalar_events)
                              (map value scalar_events))))%result)
          tags data0 = Ok data /\
    forall t,
      dict_get data t =
      if in_dec string_dec t tags
      then option_map series_of_events (dict_get ea t)
      else dict_get data0 t.
Proof.
  revert data0. induction tags as [|t0 tags IH]; intros data0 Hkeys.
  - exists data0. split; [reflexivity|]. intros t. reflexivity.
  - assert (Hin0 : In t0 (dict_keys ea)) by (apply Hkeys; now left).
    destruct (dict_get ea t0) as [evs|] eqn:Hget;
      [|apply dict_get_none_keys in Hget; tauto].
    cbn [rfold]. unfold dict_index at 1. rewrite Hget. cbn [rbind].
    destruct (IH (dict_set data0 t0
                    (mkSeries (map step evs) (map value evs))))
      as (data & Hrun & Hlook).
    { intros t Ht. apply Hkeys. now right. }
    exists data. split; [exact Hrun|].
    intros t. rewrite Hlook.
    destruct (in_dec string_dec t tags) as [Hin|Hnin].
    + destruct (in_dec string_dec t (t0 :: tags)) as [_|Hn];
        [reflexivity | exfalso; apply Hn; now right].
    + destruct (string_dec t0 t) as [<-|Hne].
      * rewrite dict_get_set_same, Hget.
        destruct (in_dec string_dec t0 (t0 :: tags)) as [_|Hn];
          [reflexivity | exfalso; apply Hn; now left].
      * rewrite dict_get_set_other by assumption.
        destruct (in_dec string_dec t (t0 :: tags)) as [[H|H]|_];
          [congruence | tauto | reflexivity].
Qed.

(** X1: with tensorboard installed and event files whose modification
    times are numbers, the reader announces and loads a most recently
    modified file, and returns for every tag of that file's event store
    the series of its steps and values, and nothing for other tags. *)
Theorem reader_loads_most_recent_log :
  forall (w : world) (logdir : string),
    tensorboard_installed w = true ->
    glob_tfevents w logdir <> [] ->
    (forall f, In f (glob_tfevents w logdir) -> is_nan (st_mtime f) = false) ->
    exists latest data,
      In latest (glob_tfevents w logdir) /\
      (forall f, In f (glob_tfevents w logdir) ->
                 PrimFloat.leb (st_mtime f) (st_mtime latest) = true) /\
      extract_tensorboard_data w logdir =
        ([Print [Lit "Loading tensorboard data from: "; Lit (log_path latest)]],
         Ok (Some data)) /\
      (forall tag,
         dict_get data tag =
         option_map series_of_events
                    (dict_get (event_store w (log_parent latest)) tag)).
Proof.
  intros w logdir Hw Hfiles Hnan.
  destruct (glob_tfevents w logdir) as [|x l] eqn:Hglob; [congruence|].
  destruct (py_max_by_cons st_mtime x l) as (latest & Hmax).
  destruct (py_max_by_most_recent _ _ Hmax Hnan) as (Hin & Hupper).
  set (ea := event_store w (log_parent latest)).
  destruct (collect_series ea (dict_keys ea) []) as (data & Hrun & Hlook);
    [auto|].
  exists latest, data. split; [exact Hin|]. split; [exact Hupper|]. split.
  - unfold extract_tensorboard_data. rewrite Hw, Hglob. cbn [negb nonempty].
    rewrite Hmax, bind_lift_ok, bind_print. cbv zeta. fold ea.
    rewrite Hrun, bind_lift_ok. reflexivity.
  - intros tag. rewrite Hlook. fold ea.
    destruct (in_dec string_dec tag (dict_keys ea)) as [_|Hn]; [reflexivity|].
    apply dict_get_none_keys in Hn. now rewrite Hn.
Qed.

(** X2: every series the reader returns has as many steps as values. *)
Theorem reader_series_are_aligned :
  forall (w : world) (logdir : string) (data : dict series)
         (tag : string) (s : series),
    outcome (extract_tensorboard_data w logdir) = Ok (Some data) ->
    dict_get data tag = Some s ->
    List.length (steps s) = List.length (values s).
Proof.
  intros w logdir data tag s. unfold extract_tensorboard_data.
  destruct (tensorboard_installed w); cbn [negb]; [|discriminate].
  destruct (glob_tfevents w logdir) as [|x l]; cbn [negb nonempty];
    [discriminate|].
  destruct (py_max_by_cons st_mtime x l) as (latest & ->).
  rewrite bind_lift_ok, bind_print. cbv zeta.
  set (ea := event_store w (log_parent latest)).
  destruct (collect_series ea (dict_keys ea) []) as (data' & Hrun & Hlook);
    [auto|].
  rewrite Hrun, bind_lift_ok. cbn. intros [= <-]. rewrite Hlook.
  destruct (in_dec string_dec tag (dict_keys ea)); [|discriminate].
  destruct (dict_get ea tag) as [evs|]; [|discriminate].
  intros [= <-]. cbn. now rewrite !length_map.
Qed.


End reader_properties.

(* ================================================================= *)
(** * Further properties: the figure and the Comparator's entry point *)

Section figure_properties.

Import compare_training comparator_spec readers_spec.

Lemma plot_side_ok d metric fmt label ax :
  side_aligned d metric = true ->
  plot_side d metric fmt label ax =
  Ok (mkAxes (ax_lines ax ++ side_line d metric fmt label)
             (ax_title ax) (ax_xlabel ax) (ax_ylabel ax)
             (ax_legend ax) (ax_grid ax)).
Proof.
  unfold plot_side, side_line, side_aligned. rewrite has_metric_get.
  destruct d as [d'|]; [|destruct ax; cbn; now rewrite app_nil_r].
  unfold snapshot_index, dict_in, dict_index.
  destruct (dict_get d' metric) as [s|];
    [|destruct ax; cbn; now rewrite app_nil_r].
  intros Hlen. cbn. unfold ax_plot. cbn. now rewrite Hlen.
Qed.

Lemma plot_side_misaligned d metric fmt label ax :
  side_aligned d metric = false ->
  plot_side d metric fmt label ax = Raise ValueError.
Proof.
  unfold plot_side, side_aligned. rewrite has_metric_get.
  destruct d as [d'|]; [|discriminate].
  unfold snapshot_index, dict_in, dict_index.
  destruct (dict_get d' metric) as [s|]; [|discriminate].
  intros Hlen. cbn. unfold ax_plot. cbn. now rewrite Hlen.
Qed.

Lemma plot_panel_ok weak_data strong_data fig idx metric title ylabel ax :
  list_index fig idx = Ok ax ->
  plot_panel weak_data strong_data fig (idx, (metric, title, ylabel)) =
  if side_aligned weak_data metric && side_aligned strong_data metric then
    Ok (list_update fig idx
          (mkAxes (ax_lines ax
                     ++ side_line weak_data metric "b-" "Weak Supervision"
                     ++ side_line strong_data metric "r-" "Strong Supervision")
                  title "Iteration" ylabel true true))
  else Raise ValueError.
Proof.
  intros Hax. unfold plot_panel. rewrite Hax. cbn [rbind].
  destruct (side_aligned weak_data metric) eqn:Hweak; cbn [andb].
  - rewrite plot_side_ok by assumption. cbn [rbind].
    destruct (side_aligned strong_data metric) eqn:Hstrong.
    + rewrite plot_side_ok by assumption.
      cbn [rbind ax_lines]. now rewrite <- app_assoc.
    + now rewrite plot_side_misaligned by assumption.
  - now rewrite plot_side_misaligned by assumption.
Qed.

(** The loop over the key metrics draws the five panels, or stops at the
    first series that cannot be drawn. *)
Lemma plot_panels weak_data strong_data :
  rfold (plot_panel weak_data strong_data) (enumerate key_metrics)
        subplots_2_3 =
  if plottable weak_data strong_data
  then Ok (expected_figure weak_data strong_data ++ [blank_axes])
  else Raise ValueError.
Proof.
  unfold plottable, enumerate, key_metrics, subplots_2_3.
  cbn [List.length seq combine repeat rfold forallb].
  repeat (erewrite plot_panel_ok by reflexivity;
          match goal with
          | |- context [side_aligned ?d ?m && side_aligned ?d' ?m] =>
              destruct (side_aligned d m && side_aligned d' m);
              cbn [rbind list_update andb]; [|reflexivity]
          end).
  reflexivity.
Qed.

(** X4: [plot_comparison] creates the output directory, or raises what
    creating it raises.  It then raises ValueError when a series of a key
    metric has not as many steps as values; otherwise it saves one figure
    as training_comparison.png in the directory and reports the path, or
    raises what saving raises.  The figure has five panels, one per key
    metric in order, each titled and labelled for its metric; a panel
    holds the weak line, then the strong line, each present exactly when
    that side's snapshot has the metric as a key, an empty series
    included. *)
Theorem plot_comparison_figure :
  forall (w : world) (weak_data strong_data : snapshot) (output_dir : string),
    let png := path_join output_dir "training_comparison.png" in
    let fig := expected_figure weak_data strong_data in
    plot_comparison w weak_data strong_data output_dir =
    match mkdir_error w (path_str output_dir) with
    | Some e => ([], Raise e)
    | None =>
        if plottable weak_data strong_data then
          match savefig_error w png with
          | Some e => ([Mkdir (path_str output_dir)], Raise e)
          | None =>
              ( [ Mkdir (path_str output_dir); SaveFig png fig;
                  Print [Lit "Comparison plot saved to: "; Lit png] ],
                Ok fig )
          end
        else ([Mkdir (path_str output_dir)], Raise ValueError)
    end.
Proof.
  intros w weak_data strong_data output_dir png fig.
  unfold plot_comparison, mkdir.
  destruct (mkdir_error w (path_str output_dir)) as [e|]; [reflexivity|].
  rewrite bind_emit, plot_panels.
  destruct (plottable weak_data strong_data); [|reflexivity].
  rewrite bind_lift_ok. cbv zeta. fold fig.
  change (List.length key_metrics <? List.length (fig ++ [blank_axes]))%nat
    with true.
  cbv iota. rewrite removelast_last. fold png. unfold savefig.
  destruct (savefig_error w png) as [e|]; reflexivity.
Qed.









End figure_properties.

(* ================================================================= *)
(** * Further properties: the statistics *)

Section statistics_properties.

Import compare_training comparator_spec readers_spec.

Lemma heading_of_compared st metric c :
  dict_get (comparison st) metric = Some (Some c) ->
  In (metric_heading metric) (trace (report_metric st metric)).
Proof. unfold report_metric. intros ->. left. reflexivity. Qed.

(** X7: the summary table has a block for a metric of the fixed list
    exactly when both snapshots hold a non-empty series for it. *)
Theorem table_lists_compared_metrics :
  forall (weak_data strong_data : snapshot) (metric output_dir : string),
    In metric metrics_to_analyze ->
    (In (metric_heading metric)
        (trace (compute_statistics weak_data strong_data output_dir)) <->
     exists vw vs,
       metric_series weak_data metric = Some vw /\
       metric_series strong_data metric = Some vs).
Proof.
  intros weak_data strong_data metric output_dir Hin. split.
  - intros H. apply heading_printed in H; [|assumption].
    destruct H as (c & Hc). unfold comparison_entry in Hc.
    destruct (metric_series weak_data metric) as [vw|]; [|discriminate].
    destruct (metric_series strong_data metric) as [vs|]; [|discriminate].
    eauto.
  - intros (vw & vs & Hw & Hs).
    rewrite compute_statistics_ok. cbn [trace fst].
    rewrite !in_app_iff, in_flat_map. right. left.
    exists metric. split; [assumption|].
    apply heading_of_compared with (improvement metric (final vw) (final vs)).
    rewrite comparison_lookup by assumption.
    unfold comparison_entry. now rewrite Hw, Hs.
Qed.

Lemma last_In {A} (x : A) (l : list A) (d : A) : In (last (x :: l) d) (x :: l).
Proof.
  revert x. induction l as [|y l IH]; intros x; [now left|].
  right. apply (IH y).
Qed.

(** X8: in the summary of a series without NaN the final value lies
    between the minimum and the maximum, on either side. *)
Theorem summary_bounds_final :
  forall (weak_data strong_data : snapshot) (metric output_dir : string),
    In metric metrics_to_analyze ->
    exists st,
      outcome (compute_statistics weak_data strong_data output_dir) = Ok st /\
      (forall vals,
         metric_series weak_data metric = Some vals -> nan_free vals ->
         exists r,
           dict_get (weak_supervision st) metric = Some (Some r) /\
           PrimFloat.leb (min_value r) (final_value r) = true /\
           PrimFloat.leb (final_value r) (max_value r) = true /\
           PrimFloat.leb (min_value r) (max_value r) = true) /\
      (forall vals,
         metric_series strong_data metric = Some vals -> nan_free vals ->
         exists r,
           dict_get (strong_supervision st) metric = Some (Some r) /\
           PrimFloat.leb (min_value r) (final_value r) = true /\
           PrimFloat.leb (final_value r) (max_value r) = true /\
           PrimFloat.leb (min_value r) (max_value r) = true).
Proof.
  intros weak_data strong_data metric output_dir Hin.
  assert (Hside : forall d vals,
             metric_series d metric = Some vals -> nan_free vals ->
             exists r,
               side_entry d metric = Some r /\
               PrimFloat.leb (min_value r) (final_value r) = true /\
               PrimFloat.leb (final_value r) (max_value r) = true /\
               PrimFloat.leb (min_value r) (max_value r) = true).
  { intros d vals Hv Hnan.
    destruct (side_entry_summarises _ _ _ Hv)
      as (r & Hr & Hfinal & Hmin_in & Hmin & Hmax_in & Hmax & _).
    destruct (metric_series_nonempty _ _ _ Hv) as (x & l & ->).
    exists r. split; [exact Hr|]. rewrite Hfinal.
    split; [apply Hmin; [assumption | apply last_In]|].
    split; [apply Hmax; [assumption | apply last_In]|].
    now apply Hmin. }
  exists (expected_stats weak_data strong_data).
  split; [apply statistics_returned|]. split.
  - intros vals Hv Hnan. rewrite weak_lookup by assumption.
    destruct (Hside _ _ Hv Hnan) as (r & -> & H). eauto.
  - intros vals Hv Hnan. rewrite strong_lookup by assumption.
    destruct (Hside _ _ Hv Hnan) as (r & -> & H). eauto.
Qed.

End statistics_properties.

(* ================================================================= *)
(** * Further properties: the Live Monitor *)

Section monitor_properties.

Import monitor_training readers_spec.

Lemma existsb_keys {V} (d : dict V) (tag : string) :
  existsb (String.eqb tag) (dict_keys d) = dict_in tag d.
Proof.
  unfold dict_in. induction d as [|[k v] d IH]; simpl; [reflexivity|].
  destruct (String.eqb tag k); [reflexivity | exact IH].
Qed.

Lemma latest_of_tag_ok ea metrics tag :
  latest_of_tag ea metrics tag = Ok (keep_latest ea metrics tag).
Proof.
  unfold latest_of_tag, keep_latest. rewrite existsb_keys.
  unfold dict_in, dict_index.
  destruct (dict_get ea tag) as [[|e evs]|]; try reflexivity.
  cbn [rbind nonempty]. rewrite (py_last_cons e evs e). reflexivity.
Qed.

Lemma keep_latest_lookup ea (tags : list string) (metrics : dict latest) t :
  dict_get (fold_left (keep_latest ea) tags metrics) t =
  match (if in_dec string_dec t tags
         then match dict_get ea t with
              | Some events => latest_of_events events
              | None => None
              end
         else None) with
  | Some e => Some e
  | None => dict_get metrics t
  end.
Proof.
  revert metrics. induction tags as [|t0 tags IH]; intros metrics.
  - reflexivity.
  - cbn [fold_left]. rewrite IH.
    destruct (in_dec string_dec t tags) as [Hin|Hnin].
    + destruct (in_dec string_dec t (t0 :: tags)) as [_|Hn];
        [|exfalso; apply Hn; now right].
      destruct (dict_get ea t) as [evs|] eqn:Hget.
      * destruct (latest_of_events evs) eqn:Hl; [reflexivity|].
        unfold keep_latest. destruct (string_dec t0 t) as [->|Hne].
        -- now rewrite Hget, Hl.
        -- destruct (dict_get ea t0) as [evs0|]; [|reflexivity].
           destruct (latest_of_events evs0); [|reflexivity].
           now apply dict_get_set_other.
      * unfold keep_latest. destruct (string_dec t0 t) as [->|Hne].
        -- now rewrite Hget.
        -- destruct (dict_get ea t0) as [evs0|]; [|reflexivity].
           destruct (latest_of_events evs0); [|reflexivity].
           now apply dict_get_set_other.
    + unfold keep_latest at 1. destruct (string_dec t0 t) as [->|Hne].
      * destruct (in_dec string_dec t (t :: tags)) as [_|Hn];
          [|exfalso; apply Hn; now left].
        destruct (dict_get ea t) as [evs|]; [|reflexivity].
        destruct (latest_of_events evs); [|reflexivity].
        apply dict_get_set_same.
      * destruct (in_dec string_dec t (t0 :: tags)) as [[H|H]|_];
          [congruence | tauto |].
        destruct (dict_get ea t0) as [evs0|]; [|reflexivity].
        destruct (latest_of_events evs0); [|reflexivity].
        now apply dict_get_set_other.
Qed.

Lemma monitored_tags_dec t :
  (if in_dec string_dec t monitored_tags then true else false) =
  existsb (String.eqb t) monitored_tags.
Proof.
  destruct (in_dec string_dec t monitored_tags) as [Hin|Hnin].
  - symmetry. apply existsb_exists. exists t. split; [assumption|].
    apply String.eqb_refl.
  - symmetry. apply not_true_is_false. intros H.
    apply existsb_exists in H. destruct H as (x & Hx & Heq).
    apply String.eqb_eq in Heq. now subst.
Qed.

(** The Live Monitor's reader never raises and does nothing but read. *)
Lemma get_latest_metrics_total (w : world) (model_dir : string) :
  exists r, get_latest_metrics w model_dir = ([], Ok r).
Proof.
  unfold get_latest_metrics.
  destruct (tensorboard_installed w); [|eexists; reflexivity]. cbv zeta.
  destruct (glob_tfevents w model_dir) as [|x l]; cbn [nonempty];
    [eexists; reflexivity|].
  destruct (py_max_by_cons st_mtime x l) as (latest & ->).
  rewrite bind_lift_ok. cbv zeta.
  rewrite (rfold_total _ (keep_latest (event_store w (log_parent latest))))
    by (intros; apply latest_of_tag_ok).
  rewrite bind_lift_ok. eexists; reflexivity.
Qed.

(** X9: with tensorboard installed and event files whose modification
    times are numbers, the Live Monitor's reader prints nothing, does not
    raise and reads a most recently modified file; for each of the four
    monitored tags that has events in it, it returns the step and value
    of the last event and the number of events, and it returns no entry
    for any other tag or for a tag without events. *)
Theorem monitor_reads_latest_events :
  forall (w : world) (model_dir : string),
    tensorboard_installed w = true ->
    glob_tfevents w model_dir <> [] ->
    (forall f, In f (glob_tfevents w model_dir) -> is_nan (st_mtime f) = false) ->
    exists newest metrics,
      In newest (glob_tfevents w model_dir) /\
      (forall f, In f (glob_tfevents w model_dir) ->
                 PrimFloat.leb (st_mtime f) (st_mtime newest) = true) /\
      get_latest_metrics w model_dir = ([], Ok (Some metrics)) /\
      (forall tag,
         dict_get metrics tag =
         monitored_entry (event_store w (log_parent newest)) tag).
Proof.
  intros w model_dir Hw Hfiles Hnan.
  destruct (glob_tfevents w model_dir) as [|x l] eqn:Hglob; [congruence|].
  destruct (py_max_by_cons st_mtime x l) as (newest & Hmax).
  destruct (py_max_by_most_recent _ _ Hmax Hnan) as (Hin & Hupper).
  set (ea := event_store w (log_parent newest)).
  exists newest, (fold_left (keep_latest ea) monitored_tags []).
  split; [exact Hin|]. split; [exact Hupper|]. split.
  - unfold get_latest_metrics. rewrite Hw, Hglob. cbv zeta. cbn [nonempty].
    rewrite Hmax, bind_lift_ok. cbv zeta. fold ea.
    rewrite (rfold_total _ (keep_latest ea))
      by (intros; apply latest_of_tag_ok).
    now rewrite bind_lift_ok.
  - intros tag. rewrite keep_latest_lookup. unfold monitored_entry.
    fold ea. rewrite <- monitored_tags_dec.
    destruct (in_dec string_dec tag monitored_tags); [|reflexivity].
    destruct (dict_get ea tag) as [evs|]; [|reflexivity].
    now destruct (latest_of_events evs).
Qed.

End monitor_properties.

Section display_properties.

Import monitor_training readers_spec.

Lemma prefix_app (old rest : string) : String.prefix old (old ++ rest) = true.
Proof.
  induction old as [|c old IH]; simpl; [now destruct rest|].
  destruct (ascii_dec c c); [exact IH | congruence].
Qed.

Lemma replace_skip (old new a rest : string) :
  replace_from old new (a ++ rest) (String.length a) =
  replace_from old new rest 0.
Proof. induction a as [|c a IH]; simpl; [reflexivity | exact IH]. Qed.

(** A string that starts with [old] is rewritten to [new] followed by
    the rewriting of the rest. *)
Lemma replace_prefix (c : ascii) (old new rest : string) :
  str_replace (String c old) new (String c old ++ rest) =
  (new ++ str_replace (String c old) new rest)%string.
Proof.
  unfold str_replace.
  change (String c old ++ rest)%string with (String c (old ++ rest)).
  cbn [replace_from].
  change (String c (old ++ rest)) with (String c old ++ rest)%string.
  rewrite prefix_app.
  change (String.length (String c old) - 1) with (String.length old - 0).
  now rewrite Nat.sub_0_r, replace_skip.
Qed.

(** A string in which [old] does not occur is left as it is. *)
Lemma replace_absent (old new s : string) :
  str_contains old s = false -> str_replace old new s = s.
Proof.
  unfold str_replace. induction s as [|c s IH]; [reflexivity|].
  cbn [str_contains replace_from].
  destruct (String.prefix old (String c s)); [discriminate|].
  intros H. now rewrite IH.
Qed.

Lemma replace_keeps_test_prefix (rest : string) :
  str_replace "train_loss_patches/" "" ("test/loss_viewpoint - " ++ rest) =
  ("test/loss_viewpoint - " ++ str_replace "train_loss_patches/" "" rest)%string.
Proof. reflexivity. Qed.

(** X10: in the name the Live Monitor shows, a leading
    "train_loss_patches/" is dropped and a leading
    "test/loss_viewpoint - " becomes "Test ", whatever follows; what
    follows is shown as it would be on its own. *)
Theorem display_name_prefixes :
  forall rest : string,
    display_name ("train_loss_patches/" ++ rest) = display_name rest /\
    display_name ("test/loss_viewpoint - " ++ rest) =
      ("Test " ++ display_name rest)%string.
Proof.
  intros rest. unfold display_name. split.
  - now rewrite replace_prefix.
  - now rewrite replace_keeps_test_prefix, replace_prefix.
Qed.

(** X11: a name that contains neither "train_loss_patches/" nor
    "test/loss_viewpoint - " is shown unchanged. *)
Theorem display_name_unchanged :
  forall name : string,
    str_contains "train_loss_patches/" name = false ->
    str_contains "test/loss_viewpoint - " name = false ->
    display_name name = name.
Proof.
  intros name H1 H2. unfold display_name.
  now rewrite (replace_absent _ _ _ H1), (replace_absent _ _ _ H2).
Qed.

End display_properties.

Section monitor_loop_properties.

Import monitor_training readers_spec comparator_spec.


(** X12: a pass that finds tensorboard missing or no event file prints
    one line, the "No metrics found" notice with the time of day, and
    nothing about the cause. *)
Theorem poll_without_metrics :
  forall (t : tick) (model_dir : string),
    tensorboard_installed (seen t) = false \/
    glob_tfevents (seen t) model_dir = [] ->
    poll t model_dir = ([no_metrics_notice t], Ok tt).
Proof.
  intros t model_dir Hnone.
  assert (Hread : get_latest_metrics (seen t) model_dir = ([], Ok None)).
  { unfold get_latest_metrics.
    destruct (tensorboard_installed (seen t)); [|reflexivity].
    destruct Hnone as [H|H]; [discriminate|]. now rewrite H. }
  unfold poll. now rewrite Hread.
Qed.

(** X17: a pass that finds metrics prints a block: a rule, the heading
    with date and time, a rule, one line per metric found, in the order
    the reader returned them, each with the display name, the value to
    six decimals and the iteration, and a closing rule. *)
Theorem poll_with_metrics :
  forall (t : tick) (model_dir : string) (item : string * latest)
         (items : dict latest),
    outcome (get_latest_metrics (seen t) model_dir) = Ok (Some (item :: items)) ->
    poll t model_dir =
    ( [ Print [Lit nl; Lit (str_repeat "=" 60)];
        Print [Lit "Training Progress - "; Lit (strftime t "%Y-%m-%d %H:%M:%S")];
        Print [Lit (str_repeat "=" 60)] ]
      ++ map metric_line (item :: items)
      ++ [ Print [Lit (str_repeat "=" 60)] ],
      Ok tt ).
Proof.
  intros t model_dir item items Hread. unfold poll.
  destruct (get_latest_metrics_total (seen t) model_dir) as (r & Hr).
  rewrite Hr in Hread |- *. cbn in Hread. injection Hread as ->.
  rewrite bind_ok. cbn [app]. rewrite !bind_print.
  rewrite (for_each_trace (fun item => emit (metric_line item)))
    by reflexivity.
  rewrite bind_ok. cbn [trace outcome fst snd app print emit].
  assert (Hlines : forall l : dict latest,
             flat_map (fun x => trace (emit (metric_line x))) l =
             map metric_line l).
  { induction l as [|x l IH]; [reflexivity|].
    cbn [flat_map map]. now rewrite IH. }
  now rewrite Hlines.
Qed.








End monitor_loop_properties.

(* ================================================================= *)
(** * Further properties: the Run Orchestrator *)

Section orchestrator_properties.

Import run_comparison readers_spec.

Lemma filter_firstn {A} (f : A -> bool) (l : list A) (k : nat) :
  exists n, filter f (firstn k l) = firstn n (filter f l).
Proof.
  revert k. induction l as [|x l IH]; intros k.
  - exists O. now destruct k.
  - destruct k as [|k]; [exists O; reflexivity|].
    destruct (IH k) as (n & Hn). cbn [firstn filter].
    destruct (f x); [exists (S n); cbn [firstn]; now rewrite Hn | eauto].
Qed.

(** What [run_training_comparison] does up to its [try] block when the
    output directory can be created and both trainers can be started:
    28 effects, of which two concern a process. *)
Lemma startup_run (w : world) (ch : children)
      (scene_path depth_images_path gt_depth_path output_base : string) :
  let base := path_str output_base in
  let weak_output := path_join output_base "weak_supervision" in
  let strong_output := path_join output_base "strong_supervision" in
  let weak_cmd := weak_cmd scene_path depth_images_path weak_output in
  let strong_cmd := strong_cmd scene_path gt_depth_path strong_output in
  mkdir_error w base = None ->
  popen_error ch weak_cmd = None ->
  popen_error ch strong_cmd = None ->
  exists startup,
    (mkdir w output_base ;;
     print [Lit (str_repeat "=" 80)] ;;
     print [Lit "STARTING COMPARATIVE TRAINING"] ;;
     print [Lit (str_repeat "=" 80)] ;;
     print [Lit "Scene path: "; Lit scene_path] ;;
     print [Lit "Depth images (weak): "; Lit depth_images_path] ;;
     print [Lit "GT depth (strong): "; Lit gt_depth_path] ;;
     print [Lit "Output base: "; Lit base] ;;
     print [Lit (str_repeat "=" 80)] ;;
     print [Lit nl; Lit "1. WEAK SUPERVISION TRAINING"] ;;
     print [Lit "Command:"; Lit " "; Lit (str_join " " weak_cmd)] ;;
     print [Lit nl; Lit "Starting weak supervision training..."] ;;
     popen ch weak_cmd ;;
     print [Lit nl; Lit "2. STRONG SUPERVISION TRAINING"] ;;
     print [Lit "Command:"; Lit " "; Lit (str_join " " strong_cmd)] ;;
     print [Lit nl; Lit "Starting strong supervision training..."] ;;
     popen ch strong_cmd ;;
     print [Lit nl; Lit (str_repeat "=" 80)] ;;
     print [Lit "BOTH TRAINING PROCESSES STARTED"] ;;
     print [Lit (str_repeat "=" 80)] ;;
     print [Lit "Weak supervision PID: "; Show (PyInt (weak_pid ch))] ;;
     print [Lit "Strong supervision PID: "; Show (PyInt (strong_pid ch))] ;;
     print [Lit nl; Lit "Monitoring commands:"] ;;
     print [Lit "python monitor_training.py "; Lit weak_output] ;;
     print [Lit "python monitor_training.py "; Lit strong_output] ;;
     print [Lit nl; Lit "Tensorboard: tensorboard --logdir "; Lit base;
            Lit " --port 6006"] ;;
     print [Lit nl; Lit "Comparison: python compare_training.py --weak ";
            Lit weak_output; Lit " --strong "; Lit strong_output] ;;
     print [Lit (str_repeat "=" 80)])%io = (startup, Ok tt) /\
    List.length startup = 28%nat /\
    process_events startup = [Popen weak_cmd; Popen strong_cmd].
Proof.
  intros base weak_output strong_output wcmd scmd Hmkdir Hweak Hstrong.
  unfold mkdir, popen. fold base. rewrite Hmkdir, Hweak, Hstrong.
  eexists. split; [reflexivity|]. split; reflexivity.
Qed.

(** X14: with the three input paths in place, an output directory that
    can be created and processes that can be started, the Run
    Orchestrator, left to itself, starts the weak trainer, then the
    strong trainer, waits for the weak one, then for the strong one, and
    runs the Comparator on the two output directories, whatever the two
    exit codes.  An interrupt before the [try] block (within the first
    28 effects) leaves [main] as KeyboardInterrupt with the trainers
    started so far still running; an interrupt inside the block (up to
    the return of the Comparator, ten steps on) is caught: both trainers
    are terminated after what was done and [main] returns. *)
Theorem orchestrator_process_order :
  forall (w : world) (ch : children) (a : args),
    path_exists w (scene a) = true ->
    path_exists w (depth_images a) = true ->
    path_exists w (gt_depth a) = true ->
    mkdir_error w (path_str (output a)) = None ->
    (forall cmd, popen_error ch cmd = None) ->
    let weak_output := path_join (output a) "weak_supervision" in
    let strong_output := path_join (output a) "strong_supervision" in
    let started :=
      [ Popen (weak_cmd (scene a) (depth_images a) weak_output);
        Popen (strong_cmd (scene a) (gt_depth a) strong_output) ] in
    let waited :=
      [ Wait (weak_pid ch); Wait (strong_pid ch);
        Run (comparison_cmd weak_output strong_output (output a)) ] in
    let stop := [Terminate (weak_pid ch); Terminate (strong_pid ch)] in
    let completes :=
      outcome (main w ch a) = Ok tt /\
      process_events (trace (main w ch a)) = started ++ waited in
    match interrupt ch with
    | None => completes
    | Some k =>
        if (k <? 28)%nat then
          outcome (main w ch a) = Raise KeyboardInterrupt /\
          exists n, process_events (trace (main w ch a)) = firstn n started
        else if (k <? 38)%nat then
          outcome (main w ch a) = Ok tt /\
          exists n,
            process_events (trace (main w ch a)) =
            started ++ firstn n waited ++ stop
        else completes
    end.
Proof.
  intros w ch a Hscene Hdepth Hgt Hmkdir Hpopen
         weak_output strong_output started waited stop completes.
  subst completes. unfold main. rewrite Hscene, Hdepth, Hgt. cbn [negb].
  unfold run_training_comparison. cbv zeta.
  destruct (startup_run w ch (scene a) (depth_images a) (gt_depth a) (output a)
              Hmkdir (Hpopen _) (Hpopen _))
    as (startup & Hstartup & Hlen & Hprocs).
  rewrite Hstartup.
  fold weak_output strong_output. fold weak_output strong_output in Hprocs.
  unfold subprocess_run. rewrite Hpopen. unfold ibind.
  destruct (interrupt ch) as [k|]; cbn [statements trace fst].
  - rewrite Hlen.
    destruct (Nat.ltb_spec k 28) as [Hk|Hk].
    + split; [reflexivity|]. cbn [fst].
      destruct (filter_firstn
                  (fun e => match e with
                            | Popen _ | Wait _ | Terminate _ | Run _ => true
                            | _ => false
                            end) startup k) as (n & Hn).
      exists n. unfold process_events, trace. cbn [fst]. rewrite Hn.
      exact (f_equal _ Hprocs).
    + assert (Hrest : forall rest,
                process_events (startup ++ rest) = started ++ process_events rest).
      { intros rest. pose proof Hprocs as Hp.
        unfold process_events in Hp |- *. now rewrite filter_app, Hp. }
      remember (k - 28)%nat as j eqn:Hj.
      destruct (Nat.ltb_spec k 38) as [Hk'|Hk'].
      * split.
        { do 10 (destruct j as [|j]; [reflexivity|]). lia. }
        do 10 (destruct j as [|j];
               [cbn -[process_events]; rewrite Hrest;
                first [ exists 0%nat; reflexivity | exists 1%nat; reflexivity
                      | exists 2%nat; reflexivity | exists 3%nat; reflexivity ]
               |]).
        lia.
      * do 10 (destruct j as [|j]; [lia|]).
        split; [reflexivity|]. cbn -[process_events]. now rewrite Hrest.
  - assert (Hrest : forall rest,
              process_events (startup ++ rest) = started ++ process_events rest).
    { intros rest. pose proof Hprocs as Hp.
      unfold process_events in Hp |- *. now rewrite filter_app, Hp. }
    split; [reflexivity|]. cbn -[process_events]. now rewrite Hrest.
Qed.

(** X19: with the three input paths in place, a failure to create the
    output directory leaves [main] before anything is printed or
    started.  A failure to start the weak trainer leaves [main] with no
    process started; a failure to start the strong trainer leaves
    [main] with the weak trainer started and neither waited for nor
    terminated. *)
Theorem orchestrator_start_failures :
  forall (w : world) (ch : children) (a : args),
    path_exists w (scene a) = true ->
    path_exists w (depth_images a) = true ->
    path_exists w (gt_depth a) = true ->
    let weak_output := path_join (output a) "weak_supervision" in
    let strong_output := path_join (output a) "strong_supervision" in
    let weak_cmd := weak_cmd (scene a) (depth_images a) weak_output in
    let strong_cmd := strong_cmd (scene a) (gt_depth a) strong_output in
    (forall e, mkdir_error w (path_str (output a)) = Some e ->
       main w ch a = ([], Raise e)) /\
    (forall e, mkdir_error w (path_str (output a)) = None ->
       interrupt ch = None ->
       popen_error ch weak_cmd = Some e ->
       outcome (main w ch a) = Raise e /\
       process_events (trace (main w ch a)) = []) /\
    (forall e, mkdir_error w (path_str (output a)) = None ->
       interrupt ch = None ->
       popen_error ch weak_cmd = None ->
       popen_error ch strong_cmd = Some e ->
       outcome (main w ch a) = Raise e /\
       process_events (trace (main w ch a)) = [Popen weak_cmd]).
Proof.
  intros w ch a Hscene Hdepth Hgt weak_output strong_output wcmd scmd.
  unfold main. rewrite Hscene, Hdepth, Hgt. cbn [negb].
  unfold run_training_comparison. cbv zeta.
  fold weak_output strong_output. fold wcmd scmd.
  unfold ibind at 1, mkdir, popen.
  split; [|split].
  - intros e ->. cbn [bind lift]. now destruct (interrupt ch).
  - intros e -> -> ->. split; reflexivity.
  - intros e -> -> -> ->. split; reflexivity.
Qed.

End orchestrator_properties.

(* ================================================================= *)
(** * Further properties: the Argument Contract Check *)

Section contract_properties.

Import test_gt_depth contract_spec.

Lemma defaults_hold_iff (o : dict pyval) (l : list (string * pyval * string)) :
  defaults_hold o l = Ok tt <->
  forall n v t, In (n, v, t) l ->
                exists x, dict_get o n = Some x /\ py_eq x v = true.
Proof.
  induction l as [|[[n0 v0] t0] l IH]; cbn [defaults_hold].
  - split; [intros _ n v t [] | reflexivity].
  - destruct (dict_get o n0) as [x|] eqn:Hget.
    + destruct (py_eq x v0) eqn:Heq.
      * rewrite IH. split.
        -- intros H n v t [[= <- <- <-]|Hin]; [eauto | eauto].
        -- intros H n v t Hin. apply (H n v t). now right.
      * split; [discriminate|]. intros H.
        destruct (H n0 v0 t0) as (x' & Hx' & Hp); [now left|]. congruence.
    + split; [discriminate|]. intros H.
      destruct (H n0 v0 t0) as (x' & Hx' & Hp); [now left|]. congruence.
Qed.

Lemma overrides_hold_iff (o : dict pyval) (l : dict pyval) :
  overrides_hold o l = Ok tt <->
  forall n v, In (n, v) l ->
              exists x, dict_get o n = Some x /\ py_eq x v = true.
Proof.
  induction l as [|[n0 v0] l IH]; cbn [overrides_hold].
  - split; [intros _ n v [] | reflexivity].
  - destruct (dict_get o n0) as [x|] eqn:Hget.
    + destruct (py_eq x v0) eqn:Heq.
      * rewrite IH. split.
        -- intros H n v [[= <- <-]|Hin]; [eauto | eauto].
        -- intros H n v Hin. apply (H n v). now right.
      * split; [discriminate|]. intros H.
        destruct (H n0 v0) as (x' & Hx' & Hp); [now left|]. congruence.
    + split; [discriminate|]. intros H.
      destruct (H n0 v0) as (x' & Hx' & Hp); [now left|]. congruence.
Qed.

Lemma first_missing_none (o : dict pyval) (names : list string) :
  (forall n, In n names -> exists x, dict_get o n = Some x) ->
  first_missing o names = None.
Proof.
  induction names as [|n names IH]; intros H; [reflexivity|].
  cbn [first_missing]. unfold hasattr, dict_in.
  destruct (H n) as (x & ->); [now left|]. apply IH.
  intros m Hm. apply H. now right.
Qed.

Lemma defaults_name_names (o : dict pyval) :
  defaults_hold o documented_defaults = Ok tt ->
  first_missing o option_names = None.
Proof.
  intros H. apply first_missing_none. intros n Hn.
  rewrite defaults_hold_iff in H.
  unfold option_names in Hn. apply in_map_iff in Hn.
  destruct Hn as ([[n' v] t] & <- & Hin).
  destruct (H n' v t Hin) as (x & Hx & _). eauto.
Qed.

Lemma run_passes_iff (extract : list string -> result (dict pyval)) :
  outcome (expected_run extract) = Ok tt <->
  exists opt oc,
    extract [] = Ok opt /\ extract test_args_custom = Ok oc /\
    defaults_hold opt documented_defaults = Ok tt /\
    overrides_hold oc documented_overrides = Ok tt.
Proof.
  unfold expected_run. split.
  - destruct (extract []) as [opt|e]; [|discriminate].
    destruct (first_missing opt option_names); [discriminate|].
    destruct (defaults_hold opt documented_defaults) as [[]|e] eqn:Hd;
      [|discriminate].
    destruct (extract test_args_custom) as [oc|e]; [|discriminate].
    destruct (overrides_hold oc documented_overrides) as [[]|e] eqn:Ho;
      [|discriminate].
    intros _. exists opt, oc. repeat split; assumption.
  - intros (opt & oc & -> & -> & Hd & Ho).
    now rewrite (defaults_name_names _ Hd), Hd, Ho.
Qed.

(** X15: on any parsing surface the check passes exactly when the
    namespace of the empty argument list has each of the nine options
    equal to its expected default and the namespace of the override list
    has each of them equal to its override value. *)
Theorem check_passes_iff_contract :
  forall extract : list string -> result (dict pyval),
    outcome (test_gt_depth_args extract) = Ok tt <->
    exists opt opt_custom,
      extract [] = Ok opt /\
      extract test_args_custom = Ok opt_custom /\
      (forall n v t, In (n, v, t) documented_defaults ->
                     exists x, dict_get opt n = Some x /\ py_eq x v = true) /\
      (forall n v, In (n, v) documented_overrides ->
                   exists x, dict_get opt_custom n = Some x /\ py_eq x v = true).
Proof.
  intros extract. rewrite contract_check_run, run_passes_iff.
  split; intros (opt & oc & H0 & H1 & Hd); exists opt, oc;
    (split; [exact H0|]); (split; [exact H1|]).
  - destruct Hd as (Hd & Ho).
    split; [now apply defaults_hold_iff | now apply overrides_hold_iff].
  - destruct Hd as (Hd & Ho).
    split; [now apply defaults_hold_iff | now apply overrides_hold_iff].
Qed.

(** X16: the script prints its "All tests passed" line, and ends
    without an exception, exactly when the imports succeed and the
    argument check passes.  When an import fails, the argument check is
    not run: a failure that [except Exception] catches is printed and
    raised again; any other (an exit, an interrupt) leaves the script
    unprinted. *)
Theorem script_passes_iff :
  forall (imports : option failure)
         (extract : list string -> result (dict pyval)),
    (outcome (script imports extract) = Ok tt <->
     imports = None /\ outcome (test_gt_depth_args extract) = Ok tt) /\
    (In all_passed (trace (script imports extract)) <->
     imports = None /\ outcome (test_gt_depth_args extract) = Ok tt) /\
    (forall f, imports = Some f ->
       script imports extract =
       ( [ Print [Lit "Testing GT depth supervision implementation..."];
           Print [] ]
         ++ (if is_Exception (raised f)
             then [Print [Lit cross_mark; Lit " Import error: "; Lit (text f)]]
             else []),
         Raise (raised f) )).
Proof.
  intros imports extract. unfold script.
  rewrite contract_check_run. unfold expected_run.
  destruct imports as [f|].
  - cbn [test_import_updated_modules].
    destruct (is_Exception (raised f)) eqn:Hexc; (split; [|split]).
    + split; [discriminate | intros [H _]; discriminate].
    + split; [|intros [H _]; discriminate].
      cbn. intros [H|[H|[H|[]]]]; discriminate.
    + intros f' [= <-]. rewrite Hexc. reflexivity.
    + split; [discriminate | intros [H _]; discriminate].
    + split; [|intros [H _]; discriminate].
      cbn. intros [H|[H|[]]]; discriminate.
    + intros f' [= <-]. rewrite Hexc. reflexivity.
  - destruct (extract []) as [opt|e].
    2:{ split; [|split]; try (intros f Hf; discriminate);
        (split; [cbn; intros H | intros [_ H]; discriminate]).
        - discriminate.
        - destruct H as [H|[H|[H|[]]]]; discriminate. }
    destruct (first_missing opt option_names).
    { split; [|split]; try (intros f Hf; discriminate);
        (split; [cbn; intros H | intros [_ H]; discriminate]).
      - discriminate.
      - destruct H as [H|[H|[H|[]]]]; discriminate. }
    destruct (defaults_hold opt documented_defaults) as [[]|e].
    2:{ split; [|split]; try (intros f Hf; discriminate);
        (split; [cbn; intros H | intros [_ H]; discriminate]).
        - discriminate.
        - destruct H as [H|[H|[H|[]]]]; discriminate. }
    destruct (extract test_args_custom) as [oc|e].
    2:{ split; [|split]; try (intros f Hf; discriminate);
        (split; [cbn; intros H | intros [_ H]; discriminate]).
        - discriminate.
        - destruct H as [H|[H|[H|[H|[]]]]]; discriminate. }
    destruct (overrides_hold oc documented_overrides) as [[]|e].
    2:{ split; [|split]; try (intros f Hf; discriminate);
        (split; [cbn; intros H | intros [_ H]; discriminate]).
        - discriminate.
        - destruct H as [H|[H|[H|[H|[]]]]]; discriminate. }
    split; [|split]; try (intros f Hf; discriminate).
    + split; [intros _; split; reflexivity | reflexivity].
    + split; [intros _; split; reflexivity|]. intros _. cbn.
      do 6 right. left. reflexivity.
Qed.

End contract_properties.

(* ================================================================= *)
(** * The further properties at sample inputs *)

Section properties_at_samples.

Import compare_training comparator_spec readers_spec samples.

Local Open Scope float_scope.

Lemma two_logs_are_dated :
  forall f, In f (glob_tfevents two_logs "runs/weak") -> is_nan (st_mtime f) = false.
Proof. intros f [<-|[<-|[]]]; reflexivity. Defined.

(** X1 on the machine with two event files. *)
Lemma reader_at_two_logs :
  exists latest data,
    In latest (glob_tfevents two_logs "runs/weak") /\
    (forall f, In f (glob_tfevents two_logs "runs/weak") ->
               PrimFloat.leb (st_mtime f) (st_mtime latest) = true) /\
    extract_tensorboard_data two_logs "runs/weak" =
      ([Print [Lit "Loading tensorboard data from: "; Lit (log_path latest)]],
       Ok (Some data)) /\
    (forall tag,
       dict_get data tag =
       option_map series_of_events
                  (dict_get (event_store two_logs (log_parent latest)) tag)).
Proof.
  apply (reader_loads_most_recent_log two_logs "runs/weak").
  - reflexivity.
  - discriminate.
  - exact two_logs_are_dated.
Defined.

(** X2 on the [total_points] series of the machine with two event
    files. *)
Lemma aligned_at_two_logs :
  List.length [100%Z; 200%Z] = List.length [1000; 1500].
Proof.
  apply (reader_series_are_aligned two_logs "runs/weak" two_logs_snapshot
           "total_points" (mkSeries [100%Z; 200%Z] [1000; 1500]));
    reflexivity.
Defined.


(** X7 on a metric both sides hold. *)
Lemma table_at_lower_loss :
  In (metric_heading "train_loss_patches/l1_loss")
     (trace (compute_statistics (Some weak_ten) (Some strong_eight) "out")) <->
  exists vw vs,
    metric_series (Some weak_ten) "train_loss_patches/l1_loss" = Some vw /\
    metric_series (Some strong_eight) "train_loss_patches/l1_loss" = Some vs.
Proof.
  apply (table_lists_compared_metrics (Some weak_ten) (Some strong_eight)
           "train_loss_patches/l1_loss" "out").
  simpl. right. left. reflexivity.
Defined.

Lemma rising_is_nan_free : nan_free [1; 2; 3].
Proof. intros x [<-|[<-|[<-|[]]]]; reflexivity. Defined.

(** X8 on the series [1.0, 2.0, 3.0]. *)
Lemma bounds_at_rising_series :
  exists st r,
    outcome (compute_statistics (Some rising) None "out") = Ok st /\
    dict_get (weak_supervision st) "train_loss_patches/total_loss"
      = Some (Some r) /\
    PrimFloat.leb (min_value r) (final_value r) = true /\
    PrimFloat.leb (final_value r) (max_value r) = true /\
    PrimFloat.leb (min_value r) (max_value r) = true.
Proof.
  destruct (summary_bounds_final (Some rising) None
              "train_loss_patches/total_loss" "out")
    as (st & Hst & Hweak & _).
  - simpl. left. reflexivity.
  - destruct (Hweak [1; 2; 3]) as (r & Hr & Hbounds);
      [reflexivity | exact rising_is_nan_free |].
    exists st, r. split; [exact Hst|]. split; [exact Hr | exact Hbounds].
Defined.

(** X9 on the machine with two event files. *)
Lemma monitor_at_two_logs :
  exists newest metrics,
    In newest (glob_tfevents two_logs "runs/weak") /\
    (forall f, In f (glob_tfevents two_logs "runs/weak") ->
               PrimFloat.leb (st_mtime f) (st_mtime newest) = true) /\
    monitor_training.get_latest_metrics two_logs "runs/weak"
      = ([], Ok (Some metrics)) /\
    (forall tag,
       dict_get metrics tag =
       monitored_entry (event_store two_logs (log_parent newest)) tag).
Proof.
  apply (monitor_reads_latest_events two_logs "runs/weak").
  - reflexivity.
  - discriminate.
  - exact two_logs_are_dated.
Defined.

(** X11 on the name [total_points]. *)
Lemma display_at_total_points :
  monitor_training.display_name "total_points" = "total_points"%string.
Proof.
  apply (display_name_unchanged "total_points"); reflexivity.
Defined.

(** X12 on a machine without tensorboard. *)
Lemma poll_at_no_tensorboard :
  monitor_training.poll idle_tick "runs/weak"
    = ([no_metrics_notice idle_tick], Ok tt).
Proof.
  apply (poll_without_metrics idle_tick "runs/weak"). left. reflexivity.
Defined.

(** X17 on the machine with two event files. *)
Lemma poll_at_two_logs :
  monitor_training.poll busy_tick "runs/weak" =
  ( [ Print [Lit nl; Lit (str_repeat "=" 60)];
      Print [Lit "Training Progress - "; Lit "%Y-%m-%d %H:%M:%S"];
      Print [Lit (str_repeat "=" 60)] ]
    ++ map monitor_training.metric_line
         [ ("train_loss_patches/l1_loss",
            monitor_training.mkLatest 100 0.5 1);
           ("total_points", monitor_training.mkLatest 200 1500 2) ]
    ++ [ Print [Lit (str_repeat "=" 60)] ],
    Ok tt ).
Proof.
  apply (poll_with_metrics busy_tick "runs/weak"
           ("train_loss_patches/l1_loss", monitor_training.mkLatest 100 0.5 1)
           [("total_points", monitor_training.mkLatest 200 1500 2)]).
  reflexivity.
Defined.

(** X14 on a machine where the three paths exist and both trainers
    finish. *)
Lemma orchestrator_at_completion :
  outcome (run_comparison.main no_logs two_children run_args) = Ok tt /\
  process_events (trace (run_comparison.main no_logs two_children run_args)) =
    [ Popen (run_comparison.weak_cmd "data/scene" "data/depth"
               "comparison_training/weak_supervision");
      Popen (run_comparison.strong_cmd "data/scene" "data/gt"
               "comparison_training/strong_supervision");
      Wait 4101; Wait 4102;
      Run (run_comparison.comparison_cmd
             "comparison_training/weak_supervision"
             "comparison_training/strong_supervision"
             "comparison_training") ].
Proof.
  apply (orchestrator_process_order no_logs two_children run_args);
    reflexivity.
Defined.


(** X19 on a machine where the parent of the output directory is
    missing. *)
Lemma orchestrator_at_missing_parent :
  run_comparison.main no_parent two_children nested_args =
  ([], Raise (OSError "FileNotFoundError")).
Proof.
  destruct (orchestrator_start_failures no_parent two_children nested_args)
    as (Hmkdir & _); [reflexivity | reflexivity | reflexivity |].
  apply Hmkdir. reflexivity.
Defined.

End properties_at_samples.
